(** * demo-bank: the account ledger, its HTTP service and its client

    A shallow embedding of the Go package [banking] (bank.go, service.go,
    client.go, errors.go) and proofs about deposits, withdrawals,
    idempotency keys, persistence and the insufficient-funds protocol.

    Conventions of the embedding:
    - Go's [int] is the 64-bit two's complement integer of the usual
      targets; values are kept in [Z] and [+] / [-] wrap around explicitly.
    - A method with a [*Bank] receiver is a computation over [State], the
      bank object together with the outside world (files, the random
      source, the outcome of the next write to disk).
    - [log.Printf] output and the copy of the balance that [save] prints on
      standard output are not observable by any caller and are left out;
      [log.Fatalf] ends the process and is kept. *)

From Stdlib Require Import ZArith String Ascii List Lia Bool DecimalString.
From Stdlib Require DecimalFacts DecimalPos DecimalZ.
From stdpp Require Import gmap strings.

Local Open Scope string_scope.
Local Open Scope Z_scope.

(** ** Go primitives *)

Module Go.

(** *** [int] *)

Definition int_bits : Z := 64.
Definition max_int : Z := 2 ^ (int_bits - 1) - 1.
Definition min_int : Z := - 2 ^ (int_bits - 1).

Definition in_int (z : Z) : bool := (min_int <=? z) && (z <=? max_int).

(** Two's complement wrap-around of an arithmetic result. *)
Definition wrap (z : Z) : Z :=
  (z + 2 ^ (int_bits - 1)) mod 2 ^ int_bits - 2 ^ (int_bits - 1).

Definition add (a b : Z) : Z := wrap (a + b).
Definition sub (a b : Z) : Z := wrap (a - b).

(** *** Formatting and parsing of integers *)

(** The verb [%d] (and [json.Marshal]) of an [int]. *)
Definition itoa (z : Z) : string := NilZero.string_of_int (Z.to_int z).

Definition is_digit (c : ascii) : bool :=
  let n := nat_of_ascii c in (48 <=? n)%nat && (n <=? 57)%nat.

Definition digit_val (c : ascii) : Z := Z.of_nat (nat_of_ascii c) - 48.

(** Value of a non-empty run of decimal digits, read left to right. *)
Fixpoint digits_from (acc : Z) (s : string) : option Z :=
  match s with
  | EmptyString => Some acc
  | String c rest =>
      if is_digit c then digits_from (10 * acc + digit_val c) rest else None
  end.

Definition digits (s : string) : option Z :=
  match s with
  | EmptyString => None
  | _ => digits_from 0 s
  end.

Definition in_range (z : Z) : option Z := if in_int z then Some z else None.

(** [strconv.Atoi]: an optional sign, then decimal digits, within [int]. *)
Definition Atoi (s : string) : option Z :=
  match s with
  | String "+" rest => z ← digits rest; in_range z
  | String "-" rest => z ← digits rest; in_range (- z)
  | _ => z ← digits s; in_range z
  end.

(** *** Strings *)

Fixpoint is_prefix (p s : string) : bool :=
  match p, s with
  | EmptyString, _ => true
  | String a p', String b s' => if Ascii.eqb a b then is_prefix p' s' else false
  | String _ _, EmptyString => false
  end.

(** [strings.Contains]. *)
Fixpoint Contains (s sub : string) : bool :=
  is_prefix sub s ||
  match s with
  | EmptyString => false
  | String _ s' => Contains s' sub
  end.

Definition lower_ascii (c : ascii) : ascii :=
  let n := nat_of_ascii c in
  if (65 <=? n)%nat && (n <=? 90)%nat then ascii_of_nat (n + 32) else c.

(** [strings.ToLower], on ASCII letters. *)
Fixpoint ToLower (s : string) : string :=
  match s with
  | EmptyString => EmptyString
  | String c s' => String (lower_ascii c) (ToLower s')
  end.

Definition newline : ascii := ascii_of_nat 10.

(** The class [\s] of package regexp: tab, newline, form feed, carriage
    return and space. *)
Definition is_space (c : ascii) : bool :=
  let n := nat_of_ascii c in
  (n =? 9)%nat || (n =? 10)%nat || (n =? 12)%nat || (n =? 13)%nat || (n =? 32)%nat.

(** What a greedy dot-star group captures: the longest run of characters
    up to the next newline. *)
Fixpoint dot_star (s : string) : string :=
  match s with
  | EmptyString => EmptyString
  | String c s' => if Ascii.eqb c newline then EmptyString else String c (dot_star s')
  end.

(** The rest of [s] after the prefix [p], when [s] starts with [p]. *)
Fixpoint strip_prefix (p s : string) : option string :=
  match p, s with
  | EmptyString, _ => Some s
  | String a p', String b s' => if Ascii.eqb a b then strip_prefix p' s' else None
  | String _ _, EmptyString => None
  end.

(** A match of the pattern [lit\s(dot-star)] anchored at the start of [s]:
    the text of the group. *)
Definition match_here (lit s : string) : option string :=
  match strip_prefix lit s with
  | Some (String c rest) => if is_space c then Some (dot_star rest) else None
  | _ => None
  end.

(** [FindStringSubmatch] for the pattern [lit\s(dot-star)], reduced to its
    group 1: the leftmost position where the pattern matches.  [None] is
    the nil slice returned when nothing matches. *)
Fixpoint find_submatch (lit s : string) : option string :=
  match match_here lit s with
  | Some g => Some g
  | None =>
      match s with
      | EmptyString => None
      | String _ s' => find_submatch lit s'
      end
  end.

(** *** Errors *)

(** The dynamic types behind the [error] values of the package. *)
Inductive error : Type :=
| errorString (msg : string)                (* fmt.Errorf, errors.New *)
| PathError (op path why : string)          (* package os *)
| JSONError (msg : string)                  (* json.Unmarshal *)
| TransportError (msg : string)             (* http.Get, io.ReadAll *)
| InsufficientFundsError (message : string) (* errors.go *).

(** The method [Error()]. *)
Definition Error (e : error) : string :=
  match e with
  | errorString msg => msg
  | PathError op path why => op +:+ " " +:+ path +:+ ": " +:+ why
  | JSONError msg => msg
  | TransportError msg => msg
  | InsufficientFundsError message => message
  end.

End Go.

Import Go.

(** ** The world outside the process *)

(** A file that [os.Stat] finds: one that [os.ReadFile] cannot read, or its
    bytes. *)
Inductive file : Type :=
| Unreadable (why : string)
| Content (data : string).

(** What the operating system does with one call of [save]: whether
    [os.Create] fails, and how many bytes [file.Write] gets out when it does
    not write them all. *)
Record disk_io : Type := {
  create_error : option string;
  short_write : option nat
}.

Definition disk_ok : disk_io := {| create_error := None; short_write := None |}.

Record World : Type := {
  files : gmap string file;      (* path => file, absent paths do not exist *)
  cwd : option string;           (* filepath.Abs("./"), None when it fails *)
  rand_src : nat -> nat;         (* the raw draws of math/rand *)
  rand_pos : nat;
  disk_plan : nat -> disk_io;    (* the fate of the n-th save *)
  disk_pos : nat
}.

(** ** bank.go *)

Record Bank : Type := {
  name : string;
  balance : Z;
  requests : gmap string string  (* idempotency keys => transaction IDs *)
}.

Record State : Type := { bank : Bank; world : World }.

(** How a call ends: it returns, the process exits ([log.Fatalf]), or the
    goroutine panics. *)
Inductive outcome (A : Type) : Type :=
| Ret (a : A) (s : State)
| Exit (code : Z) (s : State)
| Panic (msg : string).

Arguments Ret {A} a s.
Arguments Exit {A} code s.
Arguments Panic {A} msg.

Definition M (A : Type) : Type := State -> outcome A.

Definition ret {A} (a : A) : M A := fun s => Ret a s.

Definition bind {A B} (m : M A) (k : A -> M B) : M B :=
  fun s =>
    match m s with
    | Ret a s' => k a s'
    | Exit code s' => Exit code s'
    | Panic msg => Panic msg
    end.

Notation "'let*' x ':=' m 'in' k" := (bind m (fun x => k))
  (at level 10, x pattern, m at level 100, k at level 200).

Definition get_bank : M Bank := fun s => Ret (bank s) s.
Definition get_world : M World := fun s => Ret (world s) s.

(** The state with [bank.balance] set to [v]. *)
Definition with_balance (v : Z) (s : State) : State :=
  {| bank := {| name := name (bank s); balance := v;
                requests := requests (bank s) |};
     world := world s |}.

(** The state with [bank.requests[key]] set to [txID]. *)
Definition with_request (key txID : string) (s : State) : State :=
  {| bank := {| name := name (bank s); balance := balance (bank s);
                requests := <[key := txID]> (requests (bank s)) |};
     world := world s |}.

Definition set_balance (v : Z) : M unit := fun s => Ret tt (with_balance v s).

Definition set_request (key txID : string) : M unit := fun s =>
  Ret tt (with_request key txID s).

Definition set_world (w : World) : M unit := fun s =>
  Ret tt {| bank := bank s; world := w |}.

(** The world after [n] more draws from the random source. *)
Definition advance_rand (n : nat) (s : State) : State :=
  let w := world s in
  {| bank := bank s;
     world := {| files := files w; cwd := cwd w;
                 rand_src := rand_src w; rand_pos := n + rand_pos w;
                 disk_plan := disk_plan w; disk_pos := disk_pos w |} |}.

(** The world after one more call of [save] met its fate. *)
Definition advance_disk (s : State) : State :=
  let w := world s in
  {| bank := bank s;
     world := {| files := files w; cwd := cwd w;
                 rand_src := rand_src w; rand_pos := rand_pos w;
                 disk_plan := disk_plan w; disk_pos := S (disk_pos w) |} |}.

(** The world with [f] stored at [path]. *)
Definition put_file (path : string) (f : file) (s : State) : State :=
  let w := world s in
  {| bank := bank s;
     world := {| files := <[path := f]> (files w); cwd := cwd w;
                 rand_src := rand_src w; rand_pos := rand_pos w;
                 disk_plan := disk_plan w; disk_pos := disk_pos w |} |}.

(** [log.Fatalf]: the message is logged and the process exits with status 1. *)
Definition log_Fatalf {A} : M A := fun s => Exit 1 s.

(** [filepath.Join], for a directory and a file name that [Clean] leaves as
    they are. *)
Definition filepath_Join (dir fileName : string) : string :=
  dir +:+ "/" +:+ fileName.

Definition GetName : M string := let* b := get_bank in ret (name b).

Definition GetBalance : M Z := let* b := get_bank in ret (balance b).

Definition GetDataPath : M string :=
  let* b := get_bank in
  let* w := get_world in
  let fileName := "bank-" +:+ ToLower (name b) +:+ ".dat" in
  match cwd w with
  | Some dir => ret (filepath_Join dir fileName)
  | None => ret fileName
  end.

(** *** [rand.Intn] and [generateTransactionID] *)

Definition Intn (n : Z) : M Z := fun s =>
  if n <=? 0 then Panic "invalid argument to Intn"
  else
    let w := world s in
    Ret (Z.of_nat (rand_src w (rand_pos w)) mod n) (advance_rand 1 s).

Definition allowedChars : string := "0123456789".

(** [allowedChars[i]], with the run-time panic of an index out of range. *)
Definition char_at (s : string) (i : Z) : M ascii :=
  match (if i <? 0 then None else String.get (Z.to_nat i) s) with
  | Some c => ret c
  | None => fun _ => Panic "index out of range"
  end.

Fixpoint randChars (length : nat) : M string :=
  match length with
  | O => ret EmptyString
  | S n =>
      let* i := Intn (Z.of_nat (String.length allowedChars)) in
      let* c := char_at allowedChars i in
      let* rest := randChars n in
      ret (String c rest)
  end.

Definition generateTransactionID (prefix : string) (length : nat) : M string :=
  let* chars := randChars length in
  ret (prefix +:+ chars).

(** *** [json.Unmarshal] into an [int] *)

(** The white space of JSON: space, tab, line feed, carriage return. *)
Definition json_space (c : ascii) : bool :=
  let n := nat_of_ascii c in
  (n =? 32)%nat || (n =? 9)%nat || (n =? 10)%nat || (n =? 13)%nat.

Fixpoint skip_space (s : string) : string :=
  match s with
  | String c s' => if json_space c then skip_space s' else s
  | EmptyString => EmptyString
  end.

(** The first token (up to white space) and what follows it. *)
Fixpoint token (s : string) : string * string :=
  match s with
  | EmptyString => (EmptyString, EmptyString)
  | String c s' =>
      if json_space c then (EmptyString, s)
      else let '(t, rest) := token s' in (String c t, rest)
  end.

(** The digits of a JSON integer: a lone zero, or no leading zero. *)
Definition json_digits (s : string) : option Z :=
  match s with
  | String "0" EmptyString => Some 0
  | String "0" _ => None
  | _ => digits s
  end.

(** A JSON number without fraction or exponent that fits an [int]. *)
Definition json_integer (t : string) : option Z :=
  match t with
  | String "-" rest => z ← json_digits rest; in_range (- z)
  | _ => z ← json_digits t; in_range z
  end.

(** [json.Unmarshal(data, &v)] for [v] an [int] holding [old]: the new value
    of [v] and the error.  An integer literal is stored, [null] leaves [v]
    as it is, and every other input (a syntax error, another JSON value, a
    number with a fraction or exponent or out of range) is an error. *)
Definition Unmarshal_int (data : string) (old : Z) : Z * option error :=
  let '(t, rest) := token (skip_space data) in
  match skip_space rest with
  | EmptyString =>
      if String.eqb t "null" then (old, None)
      else match json_integer t with
           | Some z => (z, None)
           | None => (old, Some (JSONError "cannot unmarshal into Go value of type int"))
           end
  | _ => (old, Some (JSONError "invalid character after top-level value"))
  end.

(** *** [load], [save] and [NewBank] *)

Definition load : M (Z * option error) :=
  let* dataFileName := GetDataPath in
  let* w := get_world in
  let balance := 0 in
  match files w !! dataFileName with
  | Some f =>
      (* data from previous session exists, load it *)
      match f with
      | Unreadable why => ret (-1, Some (PathError "open" dataFileName why))
      | Content db =>
          let '(balance, err) := Unmarshal_int db balance in
          match err with
          | Some e => ret (-1, Some e)
          | None => ret (balance, None)
          end
      end
  | None => ret (balance, None)
  end.

(** [os.Create] under the fate [io]: the error, or the file truncated. *)
Definition os_Create (io : disk_io) (path : string) : M (option error) :=
  match create_error io with
  | Some why => ret (Some (PathError "open" path why))
  | None => fun s => Ret None (put_file path (Content EmptyString) s)
  end.

(** What [file.Write] gets out of [data] under the fate [io]. *)
Definition written (io : disk_io) (data : string) : string :=
  match short_write io with
  | Some n => String.substring 0 n data
  | None => data
  end.

(** [file.Write] under the fate [io]; its result is dropped by the caller. *)
Definition file_Write (io : disk_io) (path data : string) : M unit := fun s =>
  Ret tt (put_file path (Content (written io data)) s).

(** The fate of this call of [save]; the next call gets the next one. *)
Definition next_disk_io : M disk_io := fun s =>
  let w := world s in
  Ret (disk_plan w (disk_pos w)) (advance_disk s).

Definition save : M (option error) :=
  let* dataFileName := GetDataPath in
  let* io := next_disk_io in
  let* b := get_bank in
  let data := itoa (balance b) in
  let* err := os_Create io dataFileName in
  match err with
  | Some _ => log_Fatalf
  | None =>
      let* _ := file_Write io dataFileName data in
      ret err
  end.

(** [NewBank]: the fresh object, in the world [w], after the constructor. *)
Definition NewBank (name : string) (w : World) : outcome unit :=
  (let* (previousBalance, err) := load in
   set_balance previousBalance)
    {| bank := {| name := name; balance := 0; requests := ∅ |}; world := w |}.

(** *** [Deposit] and [Withdraw] *)

Definition Deposit (amount : Z) (idempotencyKey : string)
  : M (string * option error) :=
  if amount <? 1 then
    ret (EmptyString, Some (errorString ("Invalid amount - " +:+ itoa amount)))
  else
    let* b := get_bank in
    (* check idempotency key, only process deposit if it's unique *)
    match (if String.eqb idempotencyKey "" then None
           else requests b !! idempotencyKey) with
    | Some previousTxID => ret (previousTxID, None)
    | None =>
        let* b := get_bank in
        let* _ := set_balance (add (balance b) amount) in
        let* txID := generateTransactionID "D" 10 in
        let* _ := set_request idempotencyKey txID in (* under requestsLock *)
        let* err := save in
        match err with
        | Some e => ret (EmptyString, Some e)
        | None => ret (txID, None)
        end
    end.

Definition insufficient_funds (amount bal : Z) : string :=
  "insufficient funds: withdrawal amount $" +:+ itoa amount
    +:+ " exceeds balance $" +:+ itoa bal.

Definition Withdraw (amount : Z) (idempotencyKey : string)
  : M (string * option error) :=
  if amount <? 1 then
    ret (EmptyString, Some (errorString ("Invalid amount: " +:+ itoa amount)))
  else
    let* b := get_bank in
    if amount >? balance b then
      ret (EmptyString, Some (errorString (insufficient_funds amount (balance b))))
    else
      (* check idempotency key, only process withdrawal if it's unique *)
      match (if String.eqb idempotencyKey "" then None
             else requests b !! idempotencyKey) with
      | Some previousTxID => ret (previousTxID, None)
      | None =>
          let* b := get_bank in
          let* _ := set_balance (sub (balance b) amount) in
          let* txID := generateTransactionID "W" 10 in
          let* _ := set_request idempotencyKey txID in (* under requestsLock *)
          let* err := save in
          match err with
          | Some e => ret (EmptyString, Some e)
          | None => ret (txID, None)
          end
      end.

(** ** service.go *)

Record Request : Type := {
  query : gmap string (list string)   (* r.URL.Query() *)
}.

Record Response : Type := { status : Z; body : string }.

Definition StatusOK : Z := 200.
Definition StatusBadRequest : Z := 400.

(** [http.Error]: the status, and the message followed by a newline. *)
Definition http_Error (message : string) (code : Z) : Response :=
  {| status := code; body := message +:+ String newline EmptyString |}.

(** [params[0]], with the run-time panic of an index out of range. *)
Definition first_param (params : list string) : M string :=
  match params with
  | p :: _ => ret p
  | [] => fun _ => Panic "index out of range"
  end.

Definition idempotency_param (r : Request) : M string :=
  match query r !! "idempotency-key" with
  | Some idempotencyKeyParams => first_param idempotencyKeyParams
  | None => ret EmptyString
  end.

Definition depositHandler (r : Request) : M Response :=
  match query r !! "amount" with
  | None => ret (http_Error "ERROR: MISSING_AMOUNT_PARAM" StatusBadRequest)
  | Some amountParams =>
      let* a0 := first_param amountParams in
      match Atoi a0 with
      | None => ret (http_Error "ERROR: INVALID_AMOUNT" StatusBadRequest)
      | Some amount =>
          if amount <? 1 then
            ret (http_Error "ERROR: INVALID_AMOUNT" StatusBadRequest)
          else
            let* idempotencyKey := idempotency_param r in
            let* (txID, err) := Deposit amount idempotencyKey in
            match err with
            | Some e =>
                let message := "ERROR: DEPOSIT_FAIL: " +:+ Error e in
                ret (http_Error message StatusBadRequest)
            | None =>
                ret {| status := StatusOK;
                       body := "SUCCESS: DEPOSIT_COMPLETE: transaction-id=" +:+ txID |}
            end
      end
  end.

Definition withdrawHandler (r : Request) : M Response :=
  match query r !! "amount" with
  | None => ret (http_Error "ERROR: MISSING_AMOUNT_PARAM" StatusBadRequest)
  | Some amountParams =>
      let* a0 := first_param amountParams in
      match Atoi a0 with
      | None => ret (http_Error "ERROR: INVALID_AMOUNT" StatusBadRequest)
      | Some amount =>
          if amount <? 1 then
            ret (http_Error "ERROR: INVALID_AMOUNT" StatusBadRequest)
          else
            let* idempotencyKey := idempotency_param r in
            let* (txID, err) := Withdraw amount idempotencyKey in
            match err with
            | Some e =>
                let message := "ERROR: WITHDRAW_FAIL: " +:+ Error e in
                (* Expose insufficient funds error so that the client will
                   recognize it *)
                if Contains (Error e) "insufficient funds:" then
                  (* extract the details, which follows the colon *)
                  match find_submatch ":" (Error e) with
                  | Some detail =>
                      ret (http_Error ("ERROR: INSUFFICIENT_FUNDS: " +:+ detail)
                             StatusBadRequest)
                  | None => fun _ => Panic "index out of range"
                  end
                else ret (http_Error message StatusBadRequest)
            | None =>
                ret {| status := StatusOK;
                       body := "SUCCESS: WITHDRAW_COMPLETE: transaction-id=" +:+ txID |}
            end
      end
  end.

(** ** client.go *)

(** What [http.Get] and [io.ReadAll] give the client: no response at all, a
    response whose body cannot be read, or a response. *)
Inductive http_result : Type :=
| GetFailed (e : error)
| ReadFailed (e : error)
| Got (resp : Response).

Inductive go_result (A : Type) : Type :=
| Returned (a : A)
| Panicked (msg : string).

Arguments Returned {A} a.
Arguments Panicked {A} msg.

Definition callService (http_Get : string -> http_result) (url : string)
  : go_result (string * option error) :=
  match http_Get url with
  | GetFailed e => Returned (EmptyString, Some e)
  | ReadFailed e => Returned (EmptyString, Some e)
  | Got resp =>
      let content := body resp in
      if status resp >=? 400 then
        (* Expose a specific type of business-level error *)
        if Contains content "INSUFFICIENT_FUNDS" then
          match find_submatch "INSUFFICIENT_FUNDS:" content with
          | Some detail => Returned (EmptyString, Some (InsufficientFundsError detail))
          | None => Panicked "index out of range"
          end
        else
          (* some other type of error, such as a malformed request *)
          let message := "HTTP Error " +:+ itoa (status resp) +:+ ": " +:+ content in
          Returned (EmptyString, Some (errorString message))
      else Returned (content, None)
  end.

(** ** Sequences of calls on one bank *)

Inductive call : Type :=
| CallDeposit (amount : Z) (idempotencyKey : string)
| CallWithdraw (amount : Z) (idempotencyKey : string).

Definition call_key (c : call) : string :=
  match c with
  | CallDeposit _ k => k
  | CallWithdraw _ k => k
  end.

Definition perform (c : call) : M (string * option error) :=
  match c with
  | CallDeposit amount k => Deposit amount k
  | CallWithdraw amount k => Withdraw amount k
  end.

(** The calls of [cs] one after the other, results dropped. *)
Fixpoint perform_all (cs : list call) : M unit :=
  match cs with
  | [] => ret tt
  | c :: cs' => let* _ := perform c in perform_all cs'
  end.

(** ** Goroutines calling into one bank

    The HTTP server runs every handler on a goroutine of its own, so calls of
    [Deposit] and [Withdraw] interleave.  A call is cut at the statements
    that touch the shared bank: the guards with the key lookup, the balance
    assignment, the generation of the ID, the assignment to [requests]
    (the only statement under [requestsLock]) and [save].  Each piece runs
    atomically, which is fewer interleavings than Go allows. *)

Inductive pc : Type :=
| AtEntry                       (* before the guards and the key lookup *)
| AtUpdate                      (* before the assignment to bank.balance *)
| AtGenerate                    (* before generateTransactionID *)
| AtRecord (txID : string)      (* before Lock; requests[key] = txID; Unlock *)
| AtSave (txID : string)        (* before bank.save() *)
| Finished (r : string * option error).

Definition lookup_key (idempotencyKey : string) : M pc :=
  let* b := get_bank in
  match (if String.eqb idempotencyKey "" then None
         else requests b !! idempotencyKey) with
  | Some previousTxID => ret (Finished (previousTxID, None))
  | None => ret AtUpdate
  end.

Definition step (c : call) (p : pc) : M pc :=
  match p, c with
  | AtEntry, CallDeposit amount k =>
      if amount <? 1 then
        ret (Finished (EmptyString,
                       Some (errorString ("Invalid amount - " +:+ itoa amount))))
      else lookup_key k
  | AtEntry, CallWithdraw amount k =>
      if amount <? 1 then
        ret (Finished (EmptyString,
                       Some (errorString ("Invalid amount: " +:+ itoa amount))))
      else
        let* b := get_bank in
        if amount >? balance b then
          ret (Finished (EmptyString,
                         Some (errorString (insufficient_funds amount (balance b)))))
        else lookup_key k
  | AtUpdate, CallDeposit amount _ =>
      let* b := get_bank in
      let* _ := set_balance (add (balance b) amount) in
      ret AtGenerate
  | AtUpdate, CallWithdraw amount _ =>
      let* b := get_bank in
      let* _ := set_balance (sub (balance b) amount) in
      ret AtGenerate
  | AtGenerate, CallDeposit _ _ =>
      let* txID := generateTransactionID "D" 10 in ret (AtRecord txID)
  | AtGenerate, CallWithdraw _ _ =>
      let* txID := generateTransactionID "W" 10 in ret (AtRecord txID)
  | AtRecord txID, _ =>
      let* _ := set_request (call_key c) txID in ret (AtSave txID)
  | AtSave txID, _ =>
      let* err := save in
      match err with
      | Some e => ret (Finished (EmptyString, Some e))
      | None => ret (Finished (txID, None))
      end
  | Finished r, _ => ret (Finished r)
  end.

(** One goroutine run to the end without interruption. *)
Definition run_alone (c : call) : M pc :=
  let* p1 := step c AtEntry in
  let* p2 := step c p1 in
  let* p3 := step c p2 in
  let* p4 := step c p3 in
  step c p4.

(** The goroutines [threads] under the schedule [sched]: each entry names
    the goroutine that runs its next piece. *)
Fixpoint interleave (sched : list nat) (threads : list (call * pc))
  : M (list (call * pc)) :=
  match sched with
  | [] => ret threads
  | i :: sched' =>
      match threads !! i with
      | Some (c, p) =>
          let* p' := step c p in
          interleave sched' (<[i := (c, p')]> threads)
      | None => interleave sched' threads
      end
  end.

(** ** service.go, the handlers that only read *)

Definition balanceHandler : M Response :=
  let* b := GetBalance in
  ret {| status := StatusOK; body := "SUCCESS: balance=" +:+ itoa b |}.

Definition nameHandler : M Response :=
  let* n := GetName in
  ret {| status := StatusOK; body := "SUCCESS: name=" +:+ n |}.

(** ** client.go, the methods of [BankClient] *)

(** [strings.Cut]: the text before and after the first [sep], and whether
    [sep] was found; without it, the whole of [s] and the empty string. *)
Fixpoint Cut (s sep : string) : string * string * bool :=
  match strip_prefix sep s with
  | Some after => (EmptyString, after, true)
  | None =>
      match s with
      | EmptyString => (EmptyString, EmptyString, false)
      | String c s' =>
          let '(before, after, found) := Cut s' sep in
          (String c before, after, found)
      end
  end.

Record BankClient : Type := { host : string; port : Z }.

Definition NewBankClient (host : string) (port : Z) : BankClient :=
  {| host := host; port := port |}.

(** The two kinds of error that [GetBalance] hands back: the error of
    [callService], or the one of [strconv.Atoi] for the text it was given. *)
Inductive balance_error : Type :=
| ServiceError (e : error)
| AtoiError (balanceString : string).

Module Client.

Section WithTransport.

(** [http.Get] with [io.ReadAll], and [url.QueryEscape]: the network and
    the library are whatever they are. *)
Variable http_Get : string -> http_result.
Variable QueryEscape : string -> string.

(** The address of [path] on the service of [client]. *)
Definition service_url (client : BankClient) (path : string) : string :=
  "http://" +:+ host client +:+ ":" +:+ itoa (port client) +:+ path.

Definition GetName (client : BankClient) : go_result (string * option error) :=
  let url := service_url client "/name" in
  match callService http_Get url with
  | Panicked msg => Panicked msg
  | Returned (_, Some err) => Returned (EmptyString, Some err)
  | Returned (content, None) =>
      let '(_, name, found) := Cut content "=" in
      if found then Returned (name, None)
      else Returned (EmptyString,
                     Some (errorString
                             ("failed to parse name from service response: "
                                +:+ content)))
  end.

Definition GetBalance (client : BankClient)
  : go_result (Z * option balance_error) :=
  let url := service_url client "/balance" in
  match callService http_Get url with
  | Panicked msg => Panicked msg
  | Returned (_, Some err) => Returned (-1, Some (ServiceError err))
  | Returned (content, None) =>
      let '(_, balanceString, _) := Cut content "=" in
      match Atoi balanceString with
      | None => Returned (-1, Some (AtoiError balanceString))
      | Some balance => Returned (balance, None)
      end
  end.

Definition Deposit (client : BankClient) (amount : Z) (idempotencyKey : string)
  : go_result (string * option error) :=
  let url := service_url client
               ("/deposit?amount=" +:+ itoa amount +:+ "&idempotency-key="
                  +:+ QueryEscape idempotencyKey) in
  match callService http_Get url with
  | Panicked msg => Panicked msg
  | Returned (_, Some err) => Returned (EmptyString, Some err)
  | Returned (content, None) =>
      let '(_, transactionID, found) := Cut content "=" in
      if found then Returned (transactionID, None)
      else Returned (EmptyString,
                     Some (errorString
                             ("failed to parse ID from service response: "
                                +:+ content)))
  end.

Definition Withdraw (client : BankClient) (amount : Z) (idempotencyKey : string)
  : go_result (string * option error) :=
  let url := service_url client
               ("/withdraw?amount=" +:+ itoa amount +:+ "&idempotency-key="
                  +:+ QueryEscape idempotencyKey) in
  match callService http_Get url with
  | Panicked msg => Panicked msg
  | Returned (_, Some err) => Returned (EmptyString, Some err)
  | Returned (content, None) =>
      let '(_, transactionID, found) := Cut content "=" in
      if found then Returned (transactionID, None)
      else Returned (EmptyString,
                     Some (errorString
                             ("failed to parse ID from service response: "
                                +:+ content)))
  end.

Definition IsServiceRunning (client : BankClient) : bool :=
  let url := service_url client "/balance" in
  match http_Get url with
  | GetFailed _ => false
  | ReadFailed _ => true
  | Got _ => true
  end.

End WithTransport.

End Client.

(** * Notions used in the statements *)

(** ** Text *)

(** The characters of a string all satisfy [p]. *)
Fixpoint all_chars (p : ascii -> bool) (s : string) : bool :=
  match s with
  | EmptyString => true
  | String c s' => p c && all_chars p s'
  end.

Definition not_newline (c : ascii) : bool := negb (Ascii.eqb c newline).

(** A transaction ID: the prefix and [n] decimal digits. *)
Definition is_txid (prefix : string) (n : nat) (txID : string) : Prop :=
  exists chars,
    txID = prefix +:+ chars /\
    String.length chars = n /\ all_chars is_digit chars = true.

(** The detail that follows the colon of the insufficient-funds message. *)
Definition funds_detail (amount bal : Z) : string :=
  "withdrawal amount $" +:+ itoa amount +:+ " exceeds balance $" +:+ itoa bal.

(** ** States that the methods reach *)

(** The value of [GetDataPath] in the state [s]. *)
Definition data_path (s : State) : string :=
  let fileName := "bank-" +:+ ToLower (name (bank s)) +:+ ".dat" in
  match cwd (world s) with
  | Some dir => filepath_Join dir fileName
  | None => fileName
  end.

(** The fate of the next call of [save] in the state [s]. *)
Definition disk_next (s : State) : disk_io :=
  disk_plan (world s) (disk_pos (world s)).

(** The fate of the save after the next one. *)
Definition disk_after_next (s : State) : disk_io :=
  disk_plan (world s) (S (disk_pos (world s))).

(** The state that a call of [save] leaves when [os.Create] succeeds. *)
Definition saved (s : State) : State :=
  put_file (data_path s)
    (Content (written (disk_next s) (itoa (balance (bank s)))))
    (advance_disk s).

(** The state before [save] of a deposit that went through. *)
Definition deposited (amount : Z) (key txID : string) (s : State) : State :=
  with_request key txID
    (advance_rand 10 (with_balance (add (balance (bank s)) amount) s)).

(** The state before [save] of a withdrawal that went through. *)
Definition withdrawn (amount : Z) (key txID : string) (s : State) : State :=
  with_request key txID
    (advance_rand 10 (with_balance (sub (balance (bank s)) amount) s)).

(** The object that [NewBank] starts from, before [load]. *)
Definition blank (name : string) (w : World) : State :=
  {| bank := {| name := name; balance := 0; requests := ∅ |}; world := w |}.

(** What [load] returns for each condition of the data file. *)
Definition load_result (s : State) : Z * option error :=
  match files (world s) !! data_path s with
  | None => (0, None)
  | Some (Unreadable why) => (-1, Some (PathError "open" (data_path s) why))
  | Some (Content db) =>
      match Unmarshal_int db 0 with
      | (_, Some e) => (-1, Some e)
      | (z, None) => (z, None)
      end
  end.

(** The state in which a computation ends, by return or by exit. *)
Definition end_state {A} (o : outcome A) : option State :=
  match o with
  | Ret _ s => Some s
  | Exit _ s => Some s
  | Panic _ => None
  end.

(** ** Calls *)

(** The key is empty or not in the cache: the call goes through. *)
Definition fresh (key : string) (s : State) : Prop :=
  key = EmptyString \/ requests (bank s) !! key = None.

Definition call_amount (c : call) : Z :=
  match c with
  | CallDeposit amount _ => amount
  | CallWithdraw amount _ => amount
  end.

Definition call_prefix (c : call) : string :=
  match c with
  | CallDeposit _ _ => "D"
  | CallWithdraw _ _ => "W"
  end.

(** The state before [save] of the call [c] when it goes through. *)
Definition applied (c : call) (txID : string) (s : State) : State :=
  match c with
  | CallDeposit amount k => deposited amount k txID s
  | CallWithdraw amount k => withdrawn amount k txID s
  end.

(** The guards of [c] let it through in the state [s]. *)
Definition admitted (c : call) (s : State) : Prop :=
  1 <= call_amount c /\
  match c with
  | CallDeposit _ _ => True
  | CallWithdraw amount _ => amount <= balance (bank s)
  end.



(** ** The kinds of failure *)

(** The error of an amount below one; [Deposit] and [Withdraw] word the
    rest of the message differently. *)
Definition InvalidAmount (e : error) : Prop :=
  exists rest, e = errorString ("Invalid amount" +:+ rest).

(** The error of a withdrawal of [amount] from a balance of [bal]. *)
Definition InsufficientFunds (amount bal : Z) (e : error) : Prop :=
  e = errorString
        ("insufficient funds: withdrawal amount $" +:+ itoa amount
           +:+ " exceeds balance $" +:+ itoa bal).

(** ** The data file *)

(** The data file of the account is absent, or holds JSON that
    [json.Unmarshal] accepts and that leaves a non-negative number. *)
Definition sound_data_file (name : string) (w : World) : Prop :=
  match files w !! data_path (blank name w) with
  | None => True
  | Some (Unreadable _) => False
  | Some (Content db) => exists z, Unmarshal_int db 0 = (z, None) /\ 0 <= z
  end.

(** ** Worlds and states used as examples *)

(** A world with no data file, a working disk and a fixed random source. *)
Definition quiet_world : World :=
  {| files := ∅; cwd := Some "/srv";
     rand_src := fun n => (n * n / 7)%nat; rand_pos := 0;
     disk_plan := fun _ => disk_ok; disk_pos := 0 |}.

(** A world whose data file for Tom holds text that is not JSON. *)
Definition corrupt_world : World :=
  {| files := {[ "/srv/bank-tom.dat" := Content "abc" ]}; cwd := Some "/srv";
     rand_src := fun n => (n * n / 7)%nat; rand_pos := 0;
     disk_plan := fun _ => disk_ok; disk_pos := 0 |}.

(** A world in which [os.Create] fails on the first [save]. *)
Definition readonly_world : World :=
  {| files := ∅; cwd := Some "/srv";
     rand_src := fun n => (n * n / 7)%nat; rand_pos := 0;
     disk_plan := fun _ => {| create_error := Some "permission denied";
                              short_write := None |};
     disk_pos := 0 |}.

(** A world in which [file.Write] writes nothing on the first [save]. *)
Definition full_disk_world : World :=
  {| files := ∅; cwd := Some "/srv";
     rand_src := fun n => (n * n / 7)%nat; rand_pos := 0;
     disk_plan := fun _ => {| create_error := None; short_write := Some O |};
     disk_pos := 0 |}.

(** The bank of Tom right after [NewBank] in [quiet_world]. *)
Definition new_tom : State :=
  {| bank := {| name := "Tom"; balance := 0; requests := ∅ |};
     world := quiet_world |}.

(** Tom's bank holding 1000 with the key [k1] already used. *)
Definition tom_1000 : State :=
  {| bank := {| name := "Tom"; balance := 1000;
                requests := {[ "k1" := "D3074185296" ]} |};
     world := quiet_world |}.

(** Tom's new bank after [Deposit(100, "k1")]. *)
Definition tom_100 : State :=
  saved (deposited 100 "k1" "D0001235791" new_tom).

(** Tom's bank after [Deposit(100, "k1")] and [Withdraw(30, "k2")]. *)
Definition tom_70 : State :=
  saved (withdrawn 30 "k2" "W4704826161" tom_100).

(** Tom's new bank after [Deposit(1100, "")]. *)
Definition tom_1100 : State :=
  saved (deposited 1100 "" "D0001235791" new_tom).

(** Tom's new bank after a deposit of the largest [int]. *)
Definition tom_full : State :=
  saved (deposited max_int "" "D0001235791" new_tom).

(** [tom_full] after the deposit of one more unit. *)
Definition tom_over : State :=
  saved (deposited 1 "" "D4704826161" tom_full).

(** A withdraw request for 5000 under the key [k1]. *)
Definition withdraw_5000 : Request :=
  {| query := {[ "amount" := ["5000"]; "idempotency-key" := ["k1"] ]} |}.

(** Both goroutines go through the key lookup before either of them
    records its ID; then the first runs to its end, and then the second. *)
Definition race_schedule : list nat := [0; 1; 0; 0; 0; 0; 1; 1; 1; 1]%nat.

(** ** Readings that the code does not satisfy *)

(** A call with a cached key returns the cached ID, read without any
    condition on the amount. *)
Definition replay_always_returns_cached : Prop :=
  forall (amount : Z) (key t : string) (s : State),
    key <> EmptyString -> requests (bank s) !! key = Some t ->
    Deposit amount key s = Ret (t, None) s /\
    (amount <= balance (bank s) -> Withdraw amount key s = Ret (t, None) s).

(** Idempotency read without any condition on the later call: once a call with the non-empty key [k] has returned
    the transaction ID [t], any later call with that key returns [t] and
    leaves the state alone, whatever its amount. *)
Definition replay_always_returns_original : Prop :=
  forall (first later : call) (t : string) (s s1 : State),
    call_key first <> EmptyString ->
    requests (bank s) !! call_key first = None ->
    perform first s = Ret (t, None) s1 ->
    call_key later = call_key first ->
    perform later s1 = Ret (t, None) s1.

(** Exactness read without any bound on the sum: every successful deposit without a key
    adds exactly the amount. *)
Definition deposit_always_exact : Prop :=
  forall (amount : Z) (txID : string) (s s' : State),
    1 <= amount ->
    Deposit amount "" s = Ret (txID, None) s' ->
    balance (bank s') = balance (bank s) + amount.


(** ** Tactics *)

(** Splits on the first guard of [Deposit] and [Withdraw]. *)
Ltac amount_case H :=
  match goal with
  | |- context [?a <? 1] =>
      destruct (Z.ltb_spec a 1) as [H|H]; [try lia | try lia]
  end.

(** Runs the pieces of a goroutine as far as they are determined. *)
Ltac run_pieces :=
  repeat (progress
            (cbn [step call_key];
             unfold lookup_key, bind, get_bank, set_balance, set_request, ret)).

(** ** Restarts, whole writes and the shape of the cache *)

(** No call of [save] ever writes fewer bytes than it was given. *)
Definition whole_writes (w : World) : Prop :=
  forall n, short_write (disk_plan w n) = None.

(** [load] in the state [s] would hand back the balance of [s]: the data
    file holds what is in memory. *)
Definition recoverable (s : State) : Prop :=
  load_result s = (balance (bank s), None).

(** Every ID in the cache is a D or a W followed by ten digits. *)
Definition cache_wellformed (s : State) : Prop :=
  forall k t, requests (bank s) !! k = Some t ->
              is_txid "D" 10 t \/ is_txid "W" 10 t.

(** ** Requests and responses *)

(** Every parameter that is present has a value, as in the [url.Values]
    that the server makes of a URL. *)
Definition wellformed_request (r : Request) : Prop :=
  query r !! "amount" <> Some [] /\ query r !! "idempotency-key" <> Some [].

(** The key that the handlers pass on: the first value of the parameter,
    or the empty string without it. *)
Definition request_key (r : Request) : string :=
  match query r !! "idempotency-key" with
  | Some (k :: _) => k
  | _ => EmptyString
  end.

Definition missing_amount : Response :=
  http_Error "ERROR: MISSING_AMOUNT_PARAM" StatusBadRequest.

Definition invalid_amount : Response :=
  http_Error "ERROR: INVALID_AMOUNT" StatusBadRequest.

Definition funds_refused (amount bal : Z) : Response :=
  http_Error ("ERROR: INSUFFICIENT_FUNDS: " +:+ funds_detail amount bal)
    StatusBadRequest.

Definition deposit_complete (txID : string) : Response :=
  {| status := StatusOK;
     body := "SUCCESS: DEPOSIT_COMPLETE: transaction-id=" +:+ txID |}.

Definition withdraw_complete (txID : string) : Response :=
  {| status := StatusOK;
     body := "SUCCESS: WITHDRAW_COMPLETE: transaction-id=" +:+ txID |}.

(** ** The client and the network *)

(** The addresses that the client asks for a deposit and a withdrawal. *)
Definition deposit_url (QueryEscape : string -> string) (client : BankClient)
  (amount : Z) (idempotencyKey : string) : string :=
  Client.service_url client
    ("/deposit?amount=" +:+ itoa amount +:+ "&idempotency-key="
       +:+ QueryEscape idempotencyKey).

Definition withdraw_url (QueryEscape : string -> string) (client : BankClient)
  (amount : Z) (idempotencyKey : string) : string :=
  Client.service_url client
    ("/withdraw?amount=" +:+ itoa amount +:+ "&idempotency-key="
       +:+ QueryEscape idempotencyKey).

(** The error that [callService] makes of an answer with status 400 that
    does not name insufficient funds. *)
Definition http_error_400 (resp : Response) : error :=
  errorString ("HTTP Error 400: " +:+ body resp).

(** A deposit request for 100 and a withdraw request for 60, with keys. *)
Definition deposit_100_k1 : Request :=
  {| query := {[ "amount" := ["100"]; "idempotency-key" := ["k1"] ]} |}.

Definition withdraw_60_k2 : Request :=
  {| query := {[ "amount" := ["60"]; "idempotency-key" := ["k2"] ]} |}.

(** Tom's bank after [Deposit(100, "k1")] and [Withdraw(60, "k2")]. *)
Definition tom_40 : State :=
  saved (withdrawn 60 "k2" "W4704826161" tom_100).

(** A client of a service on this machine, and a network that answers
    every address with [resp]. *)
Definition local_client : BankClient := NewBankClient "localhost" 8888.

Definition answering (resp : Response) : string -> http_result :=
  fun _ => Got resp.

(** A world whose data file for Tom holds a negative integer. *)
Definition overdrawn_file_world : World :=
  {| files := {[ "/srv/bank-tom.dat" := Content "-5" ]}; cwd := Some "/srv";
     rand_src := fun n => (n * n / 7)%nat; rand_pos := 0;
     disk_plan := fun _ => disk_ok; disk_pos := 0 |}.

(** Computes the code of each character that the goal names. *)
Ltac digit_const :=
  repeat match goal with
    | |- context [Z.of_nat (nat_of_ascii ?c)] =>
        let v := eval vm_compute in (Z.of_nat (nat_of_ascii c)) in
        change (Z.of_nat (nat_of_ascii c)) with v
    end.

(** * Properties *)

(** ** Integers and their decimal form *)

Lemma wrap_id (z : Z) : min_int <= z <= max_int -> wrap z = z.
Proof.
  unfold wrap, min_int, max_int, int_bits. intros H.
  rewrite Z.mod_small; lia.
Qed.

Lemma int_bounds : min_int < 0 < max_int.
Proof. split; reflexivity. Qed.

Lemma wrap_range (z : Z) : min_int <= wrap z <= max_int.
Proof.
  unfold wrap, min_int, max_int, int_bits.
  pose proof (Z.mod_pos_bound (z + 2 ^ (64 - 1)) (2 ^ 64) ltac:(lia)). lia.
Qed.

Lemma append_cons (c : ascii) (a b : string) :
  String c a +:+ b = String c (a +:+ b).
Proof. reflexivity. Qed.

Lemma append_empty (b : string) : EmptyString +:+ b = b.
Proof. reflexivity. Qed.

Lemma append_empty_r (a : string) : a +:+ EmptyString = a.
Proof.
  induction a as [|c a IH]; [reflexivity|].
  rewrite append_cons, IH. reflexivity.
Qed.

Lemma all_chars_app p (a b : string) :
  all_chars p (a +:+ b) = all_chars p a && all_chars p b.
Proof.
  induction a as [|c a IH]; simpl; [reflexivity|].
  rewrite IH. apply andb_assoc.
Qed.

Lemma all_chars_weaken (p q : ascii -> bool) (s : string) :
  (forall c, p c = true -> q c = true) ->
  all_chars p s = true -> all_chars q s = true.
Proof.
  intros Hpq. induction s as [|c s IH]; simpl; [reflexivity|].
  intros [Hc Hs]%andb_prop. rewrite (Hpq c Hc), (IH Hs). reflexivity.
Qed.

Lemma is_digit_not_newline c : is_digit c = true -> not_newline c = true.
Proof.
  unfold is_digit, not_newline. intros H.
  destruct (Ascii.eqb_spec c newline) as [->|]; [discriminate H|reflexivity].
Qed.

Lemma uint_digits (d : Decimal.uint) :
  all_chars is_digit (NilEmpty.string_of_uint d) = true.
Proof. induction d; simpl; auto. Qed.

Lemma nilzero_uint_digits (d : Decimal.uint) :
  all_chars is_digit (NilZero.string_of_uint d) = true.
Proof. destruct d; try apply uint_digits. reflexivity. Qed.

(** [%d] never prints a newline. *)
Lemma itoa_no_newline (z : Z) : all_chars not_newline (itoa z) = true.
Proof.
  unfold itoa. destruct (Z.to_int z) as [d|d]; simpl.
  - eapply all_chars_weaken; [apply is_digit_not_newline|apply nilzero_uint_digits].
  - eapply all_chars_weaken; [apply is_digit_not_newline|apply nilzero_uint_digits].
Qed.

Lemma dot_star_app (a b : string) :
  all_chars not_newline a = true -> dot_star (a +:+ b) = a +:+ dot_star b.
Proof.
  induction a as [|c a IH]; simpl; [reflexivity|].
  intros [Hc Ha]%andb_prop. unfold not_newline in Hc.
  destruct (Ascii.eqb c newline); [discriminate Hc|].
  rewrite (IH Ha). reflexivity.
Qed.

Lemma dot_star_line (a : string) :
  all_chars not_newline a = true ->
  dot_star (a +:+ String newline EmptyString) = a.
Proof.
  intros Ha. rewrite (dot_star_app _ _ Ha).
  change (dot_star (String newline EmptyString)) with EmptyString.
  apply append_empty_r.
Qed.

Lemma dot_star_whole (a : string) :
  all_chars not_newline a = true -> dot_star a = a.
Proof.
  induction a as [|c a IH]; simpl; [reflexivity|].
  intros [Hc Ha]%andb_prop. unfold not_newline in Hc.
  destruct (Ascii.eqb c newline); [discriminate Hc|].
  rewrite (IH Ha). reflexivity.
Qed.

(** ** The primitives of bank.go *)

Lemma GetDataPath_eq (s : State) : GetDataPath s = Ret (data_path s) s.
Proof.
  unfold GetDataPath, data_path, bind, get_bank, get_world, ret.
  destruct (cwd (world s)); reflexivity.
Qed.

Lemma advance_rand_0 (s : State) : advance_rand 0 s = s.
Proof. destruct s as [b []]. reflexivity. Qed.

Lemma advance_rand_add (n m : nat) (s : State) :
  advance_rand n (advance_rand m s) = advance_rand (n + m) s.
Proof.
  unfold advance_rand; simpl. do 2 f_equal. lia.
Qed.

Lemma put_file_twice (path : string) (f g : file) (s : State) :
  put_file path f (put_file path g s) = put_file path f s.
Proof.
  unfold put_file; simpl. do 2 f_equal. apply insert_insert_eq.
Qed.

Lemma allowedChars_digit (i : Z) (s : State) :
  0 <= i < 10 ->
  exists c, char_at allowedChars i s = Ret c s /\ is_digit c = true.
Proof.
  intros Hi. unfold char_at.
  destruct (i <? 0) eqn:Hneg; [lia|].
  assert (Hn : (Z.to_nat i < 10)%nat) by lia.
  destruct (Z.to_nat i) as [|[|[|[|[|[|[|[|[|[|n]]]]]]]]]];
    try (eexists; split; reflexivity).
  lia.
Qed.

Lemma randChars_spec (n : nat) (s : State) :
  exists chars,
    randChars n s = Ret chars (advance_rand n s) /\
    String.length chars = n /\ all_chars is_digit chars = true.
Proof.
  revert s. induction n as [|n IH]; intros s.
  - exists EmptyString. rewrite advance_rand_0. repeat split.
  - cbn [randChars]. unfold bind at 1.
    change (Z.of_nat (String.length allowedChars)) with 10.
    unfold Intn. change (10 <=? 0) with false. cbv iota.
    set (i := Z.of_nat _ mod 10).
    assert (Hi : 0 <= i < 10) by (apply Z.mod_pos_bound; lia).
    destruct (allowedChars_digit i (advance_rand 1 s) Hi) as (c & Hc & Hd).
    unfold bind at 1. rewrite Hc.
    destruct (IH (advance_rand 1 s)) as (chars & Hr & Hl & Ha).
    unfold bind at 1. rewrite Hr.
    exists (String c chars). unfold ret. rewrite advance_rand_add.
    replace (n + 1)%nat with (S n) by lia.
    repeat split; simpl; [congruence|]. rewrite Hd, Ha. reflexivity.
Qed.

Lemma generateTransactionID_spec (prefix : string) (n : nat) (s : State) :
  exists txID,
    generateTransactionID prefix n s = Ret txID (advance_rand n s) /\
    is_txid prefix n txID.
Proof.
  destruct (randChars_spec n s) as (chars & Hr & Hl & Ha).
  exists (prefix +:+ chars). unfold generateTransactionID, bind.
  rewrite Hr. split; [reflexivity|]. exists chars. auto.
Qed.

Lemma save_eq (s : State) :
  save s =
  match create_error (disk_next s) with
  | Some _ => Exit 1 (advance_disk s)
  | None => Ret None (saved s)
  end.
Proof.
  unfold save, bind. rewrite GetDataPath_eq.
  unfold next_disk_io, get_bank, os_Create, saved, disk_next.
  destruct (create_error (disk_plan (world s) (disk_pos (world s)))) eqn:Hc.
  - reflexivity.
  - unfold file_Write, ret. rewrite put_file_twice. reflexivity.
Qed.

(** ** The cases of [Deposit] and [Withdraw] *)

Lemma key_lookup_fresh (key : string) (s : State) :
  fresh key s ->
  (if String.eqb key "" then None else requests (bank s) !! key) = None.
Proof.
  intros [-> | Hnone]; [reflexivity|].
  destruct (String.eqb key ""); [reflexivity|exact Hnone].
Qed.

Lemma key_lookup_cached (key t : string) (s : State) :
  key <> EmptyString -> requests (bank s) !! key = Some t ->
  (if String.eqb key "" then None else requests (bank s) !! key) = Some t.
Proof.
  intros Hne Hsome. destruct (String.eqb_spec key ""); [contradiction|exact Hsome].
Qed.

Lemma fresh_or_cached (key : string) (s : State) :
  fresh key s \/ exists t, key <> EmptyString /\ requests (bank s) !! key = Some t.
Proof.
  destruct (String.eqb_spec key "") as [->|Hne]; [left; left; reflexivity|].
  destruct (requests (bank s) !! key) as [t|] eqn:Hk.
  - right. exists t. auto.
  - left. right. exact Hk.
Qed.

Lemma Deposit_invalid (amount : Z) (key : string) (s : State) :
  amount < 1 ->
  Deposit amount key s =
  Ret (EmptyString, Some (errorString ("Invalid amount - " +:+ itoa amount))) s.
Proof. intros Ha. unfold Deposit. amount_case H. reflexivity. Qed.

Lemma Deposit_cached (amount : Z) (key t : string) (s : State) :
  1 <= amount -> key <> EmptyString -> requests (bank s) !! key = Some t ->
  Deposit amount key s = Ret (t, None) s.
Proof.
  intros Ha Hne Hk. unfold Deposit. amount_case H.
  unfold bind, get_bank. rewrite (key_lookup_cached key t s Hne Hk). reflexivity.
Qed.

Lemma Deposit_fresh (amount : Z) (key : string) (s : State) :
  1 <= amount -> fresh key s ->
  exists txID,
    is_txid "D" 10 txID /\
    Deposit amount key s =
    match create_error (disk_next s) with
    | Some _ => Exit 1 (advance_disk (deposited amount key txID s))
    | None => Ret (txID, None) (saved (deposited amount key txID s))
    end.
Proof.
  intros Ha Hf. unfold Deposit. amount_case H.
  unfold bind at 1. unfold get_bank at 1.
  rewrite (key_lookup_fresh key s Hf).
  unfold bind at 1. unfold get_bank at 1.
  unfold bind at 1. unfold set_balance at 1.
  destruct (generateTransactionID_spec "D" 10
              (with_balance (add (balance (bank s)) amount) s))
    as (txID & Hgen & Hid).
  exists txID. split; [exact Hid|].
  unfold bind at 1. rewrite Hgen.
  unfold bind at 1. unfold set_request at 1.
  unfold bind. rewrite save_eq.
  fold (deposited amount key txID s).
  change (disk_next (deposited amount key txID s)) with (disk_next s).
  destruct (create_error (disk_next s)); reflexivity.
Qed.

Lemma Withdraw_invalid (amount : Z) (key : string) (s : State) :
  amount < 1 ->
  Withdraw amount key s =
  Ret (EmptyString, Some (errorString ("Invalid amount: " +:+ itoa amount))) s.
Proof. intros Ha. unfold Withdraw. amount_case H. reflexivity. Qed.

Lemma Withdraw_insufficient (amount : Z) (key : string) (s : State) :
  1 <= amount -> balance (bank s) < amount ->
  Withdraw amount key s =
  Ret (EmptyString,
       Some (errorString (insufficient_funds amount (balance (bank s))))) s.
Proof.
  intros Ha Hb. unfold Withdraw. amount_case H.
  unfold bind, get_bank.
  destruct (Z.gtb_spec amount (balance (bank s))); [reflexivity|lia].
Qed.

Lemma Withdraw_cached (amount : Z) (key t : string) (s : State) :
  1 <= amount -> amount <= balance (bank s) ->
  key <> EmptyString -> requests (bank s) !! key = Some t ->
  Withdraw amount key s = Ret (t, None) s.
Proof.
  intros Ha Hb Hne Hk. unfold Withdraw. amount_case H.
  unfold bind, get_bank.
  destruct (Z.gtb_spec amount (balance (bank s))); [lia|].
  rewrite (key_lookup_cached key t s Hne Hk). reflexivity.
Qed.

Lemma Withdraw_fresh (amount : Z) (key : string) (s : State) :
  1 <= amount -> amount <= balance (bank s) -> fresh key s ->
  exists txID,
    is_txid "W" 10 txID /\
    Withdraw amount key s =
    match create_error (disk_next s) with
    | Some _ => Exit 1 (advance_disk (withdrawn amount key txID s))
    | None => Ret (txID, None) (saved (withdrawn amount key txID s))
    end.
Proof.
  intros Ha Hb Hf. unfold Withdraw. amount_case H.
  unfold bind at 1. unfold get_bank at 1.
  destruct (Z.gtb_spec amount (balance (bank s))); [lia|].
  rewrite (key_lookup_fresh key s Hf).
  unfold bind at 1. unfold get_bank at 1.
  unfold bind at 1. unfold set_balance at 1.
  destruct (generateTransactionID_spec "W" 10
              (with_balance (sub (balance (bank s)) amount) s))
    as (txID & Hgen & Hid).
  exists txID. split; [exact Hid|].
  unfold bind at 1. rewrite Hgen.
  unfold bind at 1. unfold set_request at 1.
  unfold bind. rewrite save_eq.
  fold (withdrawn amount key txID s).
  change (disk_next (withdrawn amount key txID s)) with (disk_next s).
  destruct (create_error (disk_next s)); reflexivity.
Qed.

(** ** Invalid amounts *)

(** C5. For every amount below one and every idempotency key, [Deposit]
    and [Withdraw] both fail with an invalid-amount error, return the empty
    transaction ID and leave the whole state (balance, idempotency cache,
    files) as it was. *)
Theorem invalid_amount_rejected (amount : Z) (key : string) (s : State) :
  amount < 1 ->
  exists e1 e2,
    InvalidAmount e1 /\ InvalidAmount e2 /\
    Deposit amount key s = Ret (EmptyString, Some e1) s /\
    Withdraw amount key s = Ret (EmptyString, Some e2) s.
Proof.
  intros Ha.
  exists (errorString ("Invalid amount - " +:+ itoa amount)),
         (errorString ("Invalid amount: " +:+ itoa amount)).
  split; [exists (" - " +:+ itoa amount); reflexivity|].
  split; [exists (": " +:+ itoa amount); reflexivity|].
  split; [apply Deposit_invalid | apply Withdraw_invalid]; exact Ha.
Qed.

Lemma invalid_amount_rejected_witness :
  0 < 1 /\
  exists e1 e2,
    InvalidAmount e1 /\ InvalidAmount e2 /\
    Deposit 0 "k1" tom_1000 = Ret (EmptyString, Some e1) tom_1000 /\
    Withdraw 0 "k1" tom_1000 = Ret (EmptyString, Some e2) tom_1000.
Proof.
  split; [lia | apply (invalid_amount_rejected 0 "k1" tom_1000); lia].
Defined.

(** ** Insufficient funds *)

(** C3. For every amount of at least one that exceeds the balance,
    [Withdraw] fails with the insufficient-funds error that carries the
    amount and the balance, and leaves the state as it was.  Nothing is
    assumed of the key: the check comes before the lookup, so the call
    fails all the same when the key is in the cache. *)
Theorem withdraw_insufficient_funds (amount : Z) (key : string) (s : State) :
  1 <= amount -> balance (bank s) < amount ->
  exists e,
    InsufficientFunds amount (balance (bank s)) e /\
    Withdraw amount key s = Ret (EmptyString, Some e) s.
Proof.
  intros Ha Hb. eexists. split; [reflexivity|].
  apply Withdraw_insufficient; assumption.
Qed.

Lemma withdraw_insufficient_funds_witness :
  (1 <= 5000 /\ balance (bank tom_1000) < 5000 /\
   requests (bank tom_1000) !! "k1" = Some "D3074185296") /\
  exists e,
    InsufficientFunds 5000 (balance (bank tom_1000)) e /\
    Withdraw 5000 "k1" tom_1000 = Ret (EmptyString, Some e) tom_1000.
Proof.
  split.
  - split; [lia|]. split; [simpl; lia | reflexivity].
  - apply (withdraw_insufficient_funds 5000 "k1" tom_1000); simpl; lia.
Defined.

(** ** Replays of a key that is in the cache *)

Lemma cached_key_hit (amount : Z) (key t : string) (s : State) :
  key <> EmptyString -> requests (bank s) !! key = Some t -> 1 <= amount ->
  Deposit amount key s = Ret (t, None) s /\
  (amount <= balance (bank s) -> Withdraw amount key s = Ret (t, None) s).
Proof.
  intros Hne Hk Ha. split.
  - apply Deposit_cached; assumption.
  - intros Hb. apply Withdraw_cached; assumption.
Qed.

(** In [tom_1000] the key [k1] is in the cache, and [Deposit] and
    [Withdraw] of amount zero with that key return the invalid-amount error,
    not the cached transaction ID. *)
Lemma replay_invalid_amount_not_cached :
  requests (bank tom_1000) !! "k1" = Some "D3074185296" /\
  Deposit 0 "k1" tom_1000 =
    Ret (EmptyString, Some (errorString "Invalid amount - 0")) tom_1000 /\
  Withdraw 0 "k1" tom_1000 =
    Ret (EmptyString, Some (errorString "Invalid amount: 0")) tom_1000 /\
  ~ replay_always_returns_cached.
Proof.
  split; [reflexivity|]. split; [reflexivity|]. split; [reflexivity|].
  intros H.
  destruct (H 0 "k1" "D3074185296" tom_1000) as [Hd _];
    [discriminate | reflexivity |].
  rewrite Deposit_invalid in Hd by lia. discriminate Hd.
Qed.

(** C10 (amended). For every call of [Deposit] or [Withdraw] with an amount
    of at least one whose non-empty key is in the cache (and, for
    [Withdraw], whose amount does not exceed the balance), the call returns
    the cached transaction ID and the state is the one before the call:
    no write to disk is attempted, and the data file, the balance and the
    cache are as they were. *)
Theorem cached_key_frame (amount : Z) (key t : string) (s : State) :
  1 <= amount -> key <> EmptyString -> requests (bank s) !! key = Some t ->
  Deposit amount key s = Ret (t, None) s /\
  (amount <= balance (bank s) -> Withdraw amount key s = Ret (t, None) s).
Proof.
  intros Ha Hne Hk. apply cached_key_hit; assumption.
Qed.

Lemma cached_key_frame_witness :
  (1 <= 100 /\ "k1" <> EmptyString /\
   requests (bank tom_1000) !! "k1" = Some "D3074185296" /\
   100 <= balance (bank tom_1000)) /\
  Deposit 100 "k1" tom_1000 = Ret ("D3074185296", None) tom_1000 /\
  Withdraw 100 "k1" tom_1000 = Ret ("D3074185296", None) tom_1000.
Proof.
  assert (H1 : 1 <= 100) by lia.
  assert (H2 : "k1" <> EmptyString) by discriminate.
  assert (H3 : requests (bank tom_1000) !! "k1" = Some "D3074185296")
    by reflexivity.
  assert (H4 : 100 <= balance (bank tom_1000)) by (simpl; lia).
  split; [auto|].
  destruct (cached_key_frame 100 "k1" "D3074185296" tom_1000 H1 H2 H3)
    as [Hd Hw].
  split; [exact Hd | exact (Hw H4)].
Defined.

(** ** What one call does to the state *)

(** A call is refused with an error, answered from the cache, or goes
    through; only the last changes the state. *)
Lemma perform_cases (c : call) (s : State) :
  (exists e, perform c s = Ret (EmptyString, Some e) s) \/
  (exists t, admitted c s /\ call_key c <> EmptyString /\
             requests (bank s) !! call_key c = Some t /\
             perform c s = Ret (t, None) s) \/
  (exists txID, admitted c s /\ fresh (call_key c) s /\
                is_txid (call_prefix c) 10 txID /\
                perform c s =
                match create_error (disk_next s) with
                | Some _ => Exit 1 (advance_disk (applied c txID s))
                | None => Ret (txID, None) (saved (applied c txID s))
                end).
Proof.
  destruct c as [amount k | amount k]; simpl.
  - destruct (Z.lt_ge_cases amount 1) as [Hlt|Hge].
    { left. eexists. apply Deposit_invalid. exact Hlt. }
    right. destruct (fresh_or_cached k s) as [Hf | (t & Hne & Hk)].
    + right. destruct (Deposit_fresh amount k s Hge Hf) as (txID & Hid & Hd).
      exists txID. unfold admitted. simpl. auto.
    + left. exists t. unfold admitted. simpl.
      repeat split; auto. apply Deposit_cached; assumption.
  - destruct (Z.lt_ge_cases amount 1) as [Hlt|Hge].
    { left. eexists. apply Withdraw_invalid. exact Hlt. }
    destruct (Z.lt_ge_cases (balance (bank s)) amount) as [Hb|Hb].
    { left. eexists. apply Withdraw_insufficient; assumption. }
    right. destruct (fresh_or_cached k s) as [Hf | (t & Hne & Hk)].
    + right. destruct (Withdraw_fresh amount k s Hge Hb Hf) as (txID & Hid & Hd).
      exists txID. unfold admitted. simpl. auto.
    + left. exists t. unfold admitted. simpl.
      repeat split; auto. apply Withdraw_cached; assumption.
Qed.

Lemma applied_requests (c : call) (txID : string) (s : State) :
  requests (bank (saved (applied c txID s))) =
  <[call_key c := txID]> (requests (bank s)).
Proof. destruct c; reflexivity. Qed.

(** A call that returns a transaction ID leaves its key mapped to that ID. *)
Lemma success_caches (c : call) (t : string) (s s1 : State) :
  perform c s = Ret (t, None) s1 ->
  requests (bank s1) !! call_key c = Some t.
Proof.
  intros Hp.
  destruct (perform_cases c s)
    as [(e & He) | [(t0 & _ & _ & Hk & Hc) | (txID & _ & _ & _ & Hf)]].
  - rewrite He in Hp. discriminate Hp.
  - rewrite Hc in Hp. injection Hp as -> ->. exact Hk.
  - rewrite Hf in Hp. destruct (create_error (disk_next s)); [discriminate Hp|].
    injection Hp as -> <-. rewrite applied_requests. apply lookup_insert_eq.
Qed.

(** No call removes or replaces the entry of a non-empty key. *)
Lemma perform_keeps_key (c : call) (k t : string) (s s1 : State)
  (r : string * option error) :
  k <> EmptyString -> requests (bank s) !! k = Some t ->
  perform c s = Ret r s1 ->
  requests (bank s1) !! k = Some t.
Proof.
  intros Hne Hk Hp.
  destruct (perform_cases c s)
    as [(e & He) | [(t0 & _ & _ & _ & Hc) | (txID & _ & Hfr & _ & Hf)]].
  - rewrite He in Hp. injection Hp as _ <-. exact Hk.
  - rewrite Hc in Hp. injection Hp as _ <-. exact Hk.
  - rewrite Hf in Hp. destruct (create_error (disk_next s)); [discriminate Hp|].
    injection Hp as _ <-. rewrite applied_requests.
    rewrite lookup_insert_ne; [exact Hk|].
    intros Heq. destruct Hfr as [He | Hn]; [congruence|].
    rewrite Heq in Hn. congruence.
Qed.

Lemma perform_all_keeps_key (cs : list call) (k t : string) (s s2 : State) :
  k <> EmptyString -> requests (bank s) !! k = Some t ->
  perform_all cs s = Ret tt s2 ->
  requests (bank s2) !! k = Some t.
Proof.
  intros Hne. revert s. induction cs as [|c cs IH]; intros s Hk Hrun.
  - injection Hrun as <-. exact Hk.
  - simpl in Hrun. unfold bind in Hrun.
    destruct (perform c s) as [r s1 | code s1 | msg] eqn:Hp; try discriminate Hrun.
    apply (IH s1); [|exact Hrun].
    apply (perform_keeps_key c k t s s1 r); assumption.
Qed.

(** ** Idempotency keys *)

(** In Tom's new bank [Deposit(100, "k1")] returns an ID; [Withdraw(500,
    "k1")] then fails for lack of funds instead of returning that ID. *)
Lemma replay_withdraw_insufficient :
  requests (bank new_tom) !! "k1" = None /\
  Deposit 100 "k1" new_tom = Ret ("D0001235791", None) tom_100 /\
  Withdraw 500 "k1" tom_100 =
    Ret (EmptyString,
         Some (errorString
                 "insufficient funds: withdrawal amount $500 exceeds balance $100"))
        tom_100 /\
  ~ replay_always_returns_original.
Proof.
  assert (Hd : Deposit 100 "k1" new_tom = Ret ("D0001235791", None) tom_100)
    by (vm_compute; reflexivity).
  assert (Hw : Withdraw 500 "k1" tom_100 =
               Ret (EmptyString,
                    Some (errorString
                            "insufficient funds: withdrawal amount $500 exceeds balance $100"))
                   tom_100)
    by (vm_compute; reflexivity).
  split; [reflexivity|]. split; [exact Hd|]. split; [exact Hw|].
  intros H.
  specialize (H (CallDeposit 100 "k1") (CallWithdraw 500 "k1")
                "D0001235791" new_tom tom_100).
  simpl in H. rewrite Hw in H.
  assert (Hne : "k1" <> EmptyString) by discriminate.
  specialize (H Hne eq_refl Hd eq_refl). discriminate H.
Qed.

(** C1 (amended). Once a [Deposit] or [Withdraw] with the non-empty key [k]
    has returned the transaction ID [t], then after any further calls, a
    [Deposit] with key [k] and an amount of at least one, and a [Withdraw]
    with key [k] and an amount of at least one that does not exceed the
    balance, return [t] and leave the state (so the balance) as it was.  The
    first call may be of either operation: the cache is shared. *)
Theorem idempotent_replay (first : call) (between : list call)
  (t : string) (s s1 s2 : State) (amount : Z) :
  call_key first <> EmptyString ->
  perform first s = Ret (t, None) s1 ->
  perform_all between s1 = Ret tt s2 ->
  1 <= amount ->
  Deposit amount (call_key first) s2 = Ret (t, None) s2 /\
  (amount <= balance (bank s2) ->
   Withdraw amount (call_key first) s2 = Ret (t, None) s2).
Proof.
  intros Hne Hfirst Hrun Ha.
  pose proof (success_caches first t s s1 Hfirst) as Hk1.
  pose proof (perform_all_keeps_key between _ t s1 s2 Hne Hk1 Hrun) as Hk2.
  apply cached_key_hit; assumption.
Qed.

Lemma idempotent_replay_witness :
  ("k1" <> EmptyString /\
   perform (CallDeposit 100 "k1") new_tom = Ret ("D0001235791", None) tom_100 /\
   perform_all [CallWithdraw 30 "k2"] tom_100 = Ret tt tom_70 /\
   1 <= 20 /\ 20 <= balance (bank tom_70)) /\
  Deposit 20 "k1" tom_70 = Ret ("D0001235791", None) tom_70 /\
  Withdraw 20 "k1" tom_70 = Ret ("D0001235791", None) tom_70.
Proof.
  assert (H1 : "k1" <> EmptyString) by discriminate.
  assert (H2 : perform (CallDeposit 100 "k1") new_tom =
               Ret ("D0001235791", None) tom_100) by (vm_compute; reflexivity).
  assert (H3 : perform_all [CallWithdraw 30 "k2"] tom_100 = Ret tt tom_70)
    by (vm_compute; reflexivity).
  assert (H4 : 1 <= 20) by lia.
  assert (H5 : 20 <= balance (bank tom_70)) by (vm_compute; discriminate).
  split; [auto 6|].
  destruct (idempotent_replay (CallDeposit 100 "k1") [CallWithdraw 30 "k2"]
              "D0001235791" new_tom tom_100 tom_70 20 H1 H2 H3 H4) as [Hd Hw].
  split; [exact Hd | exact (Hw H5)].
Defined.

(** ** The effect of a call that goes through *)

Lemma applied_balance (c : call) (txID : string) (s : State) :
  balance (bank (applied c txID s)) =
  match c with
  | CallDeposit amount _ => add (balance (bank s)) amount
  | CallWithdraw amount _ => sub (balance (bank s)) amount
  end.
Proof. destruct c; reflexivity. Qed.

Lemma fresh_empty_key (s : State) : fresh EmptyString s.
Proof. left. reflexivity. Qed.

(** Starting from Tom's new bank, [Deposit(9223372036854775807, "")]
    succeeds, and [Deposit(1, "")] then succeeds too and leaves the balance
    at the smallest [int]: the sum has wrapped around. *)
Lemma deposit_wraps_around :
  Deposit max_int "" new_tom = Ret ("D0001235791", None) tom_full /\
  balance (bank tom_full) = 9223372036854775807 /\
  Deposit 1 "" tom_full = Ret ("D4704826161", None) tom_over /\
  balance (bank tom_over) = -9223372036854775808 /\
  ~ deposit_always_exact.
Proof.
  assert (H1 : Deposit 1 "" tom_full = Ret ("D4704826161", None) tom_over)
    by (vm_compute; reflexivity).
  split; [vm_compute; reflexivity|]. split; [vm_compute; reflexivity|].
  split; [exact H1|]. split; [vm_compute; reflexivity|].
  intros H. specialize (H 1 "D4704826161" tom_full tom_over ltac:(lia) H1).
  vm_compute in H. discriminate H.
Qed.

(** C4 (amended). For every amount of at least one and an empty key: a
    [Deposit] that succeeds returns the letter D followed by exactly ten
    decimal digits and, when the balance plus the amount does not exceed
    the largest [int], leaves the balance increased by exactly the amount;
    a [Withdraw] that succeeds returns the letter W followed by exactly ten
    decimal digits and leaves the balance decreased by exactly the amount.
    Both succeed whenever the data file can be created (for [Withdraw],
    when the amount does not exceed the balance). *)
Theorem exact_balance_change (amount : Z) (s : State) :
  1 <= amount -> min_int <= balance (bank s) <= max_int ->
  (forall txID s',
     Deposit amount "" s = Ret (txID, None) s' ->
     is_txid "D" 10 txID /\
     (balance (bank s) + amount <= max_int ->
      balance (bank s') = balance (bank s) + amount)) /\
  (forall txID s',
     Withdraw amount "" s = Ret (txID, None) s' ->
     is_txid "W" 10 txID /\
     balance (bank s') = balance (bank s) - amount) /\
  (create_error (disk_next s) = None ->
   (exists txID s', Deposit amount "" s = Ret (txID, None) s') /\
   (amount <= balance (bank s) ->
    exists txID s', Withdraw amount "" s = Ret (txID, None) s')).
Proof.
  intros Ha Hr. split; [|split].
  - intros txID s' Hd.
    destruct (Deposit_fresh amount "" s Ha (fresh_empty_key s)) as (t & Hid & He).
    rewrite He in Hd. destruct (create_error (disk_next s)); [discriminate Hd|].
    injection Hd as -> <-. split; [exact Hid|].
    intros Hmax. change (add (balance (bank s)) amount = balance (bank s) + amount).
    apply wrap_id. lia.
  - intros txID s' Hw.
    destruct (Z.lt_ge_cases (balance (bank s)) amount) as [Hb|Hb].
    { rewrite Withdraw_insufficient in Hw by assumption. discriminate Hw. }
    destruct (Withdraw_fresh amount "" s Ha Hb (fresh_empty_key s))
      as (t & Hid & He).
    rewrite He in Hw. destruct (create_error (disk_next s)); [discriminate Hw|].
    injection Hw as -> <-. split; [exact Hid|].
    change (sub (balance (bank s)) amount = balance (bank s) - amount).
    apply wrap_id. pose proof int_bounds. lia.
  - intros Hc. split.
    + destruct (Deposit_fresh amount "" s Ha (fresh_empty_key s)) as (t & _ & He).
      rewrite Hc in He. eauto.
    + intros Hb.
      destruct (Withdraw_fresh amount "" s Ha Hb (fresh_empty_key s))
        as (t & _ & He).
      rewrite Hc in He. eauto.
Qed.

Lemma exact_balance_change_witness :
  (1 <= 1100 /\ min_int <= balance (bank new_tom) <= max_int /\
   Deposit 1100 "" new_tom = Ret ("D0001235791", None) tom_1100 /\
   balance (bank new_tom) + 1100 <= max_int) /\
  is_txid "D" 10 "D0001235791" /\
  balance (bank tom_1100) = balance (bank new_tom) + 1100.
Proof.
  assert (H1 : 1 <= 1100) by lia.
  assert (H2 : min_int <= balance (bank new_tom) <= max_int)
    by (split; vm_compute; discriminate).
  assert (H3 : Deposit 1100 "" new_tom = Ret ("D0001235791", None) tom_1100)
    by (vm_compute; reflexivity).
  assert (H4 : balance (bank new_tom) + 1100 <= max_int)
    by (vm_compute; discriminate).
  split; [auto|].
  destruct (exact_balance_change 1100 new_tom H1 H2) as [Hd _].
  destruct (Hd "D0001235791" tom_1100 H3) as [Hid Hbal].
  split; [exact Hid | exact (Hbal H4)].
Defined.

(** ** Construction *)

Lemma load_eq (s : State) : load s = Ret (load_result s) s.
Proof.
  unfold load, load_result, bind. rewrite GetDataPath_eq. unfold get_world.
  destruct (files (world s) !! data_path s) as [[why|db]|]; try reflexivity.
  destruct (Unmarshal_int db 0) as [z [e|]]; reflexivity.
Qed.

(** [NewBank] always returns, with whatever number [load] handed back as
    the balance, error or not. *)
Lemma NewBank_eq (name : string) (w : World) :
  NewBank name w =
  Ret tt (with_balance (fst (load_result (blank name w))) (blank name w)).
Proof.
  unfold NewBank. fold (blank name w). unfold bind. rewrite load_eq.
  destruct (load_result (blank name w)). reflexivity.
Qed.

(** [Unmarshal_int] stores only values of type [int]. *)
Lemma Unmarshal_int_range (db : string) (z : Z) :
  Unmarshal_int db 0 = (z, None) -> min_int <= z <= max_int.
Proof.
  unfold Unmarshal_int. destruct (token (skip_space db)) as [t rest].
  destruct (skip_space rest); [|discriminate].
  destruct (String.eqb t "null").
  { intros [= <-]. pose proof int_bounds. lia. }
  destruct (json_integer t) as [v|] eqn:Hj; [|discriminate].
  intros [= <-].
  assert (Hin : forall x y, in_range x = Some y -> min_int <= y <= max_int).
  { intros x y. unfold in_range, in_int.
    destruct (min_int <=? x) eqn:H1; destruct (x <=? max_int) eqn:H2;
      simpl; try discriminate.
    intros [= <-]. lia. }
  unfold json_integer in Hj.
  destruct t as [|c t']; [discriminate Hj|].
  destruct (Ascii.eqb_spec c "-") as [->|Hc].
  - destruct (json_digits t') as [d|]; [|discriminate Hj].
    apply (Hin _ _ Hj).
  - assert (Hj' : (json_digits (String c t') ≫= in_range) = Some v).
    { destruct c as [[] [] [] [] [] [] [] []]; try exact Hj. contradiction. }
    destruct (json_digits (String c t')) as [d|]; [|discriminate Hj'].
    apply (Hin _ _ Hj').
Qed.

(** ** The sign of the balance *)






(** Every [NewBank] returns. *)
Lemma NewBank_returns (name : string) (w : World) :
  exists s0, NewBank name w = Ret tt s0.
Proof. eexists. apply NewBank_eq. Qed.

(** [NewBank] takes whatever integer the data file holds as the balance,
    a negative one too: nothing checks its sign. *)
Lemma NewBank_takes_file_value (name : string) (w : World) (db : string) (z : Z) :
  files w !! data_path (blank name w) = Some (Content db) ->
  Unmarshal_int db 0 = (z, None) ->
  NewBank name w = Ret tt (with_balance z (blank name w)).
Proof.
  intros Hfile Hjson. rewrite NewBank_eq. unfold load_result.
  change (files (world (blank name w))) with (files w).
  rewrite Hfile, Hjson. reflexivity.
Qed.

(** With -5 in the data file, the bank starts at -5. *)
Example negative_data_file_loaded :
  Unmarshal_int "-5" 0 = (-5, None) /\
  ~ sound_data_file "Tom" overdrawn_file_world /\
  NewBank "Tom" overdrawn_file_world
  = Ret tt (with_balance (-5) (blank "Tom" overdrawn_file_world)) /\
  balance (bank (with_balance (-5) (blank "Tom" overdrawn_file_world))) < 0.
Proof.
  split; [reflexivity|]. split.
  - unfold sound_data_file.
    replace (files overdrawn_file_world
               !! data_path (blank "Tom" overdrawn_file_world))
      with (Some (Content "-5")) by (vm_compute; reflexivity).
    intros (z & Hz & Hpos). vm_compute in Hz. injection Hz as <-. lia.
  - split; [|reflexivity].
    apply (NewBank_takes_file_value "Tom" overdrawn_file_world "-5" (-5));
      vm_compute; reflexivity.
Qed.


(** ** The data file at construction *)

(** C6. Without a data file [NewBank] returns a bank whose balance is zero.
    With a data file that [json.Unmarshal] rejects, [load] returns -1 and
    the error, but [NewBank] only logs the error: it returns a bank all the
    same, with -1 as its balance, where the specification has a fatal load
    error. *)
Theorem new_bank_data_file (name : string) (w : World) :
  (files w !! data_path (blank name w) = None ->
   NewBank name w = Ret tt (blank name w) /\
   balance (bank (blank name w)) = 0) /\
  (forall db z e,
     files w !! data_path (blank name w) = Some (Content db) ->
     Unmarshal_int db 0 = (z, Some e) ->
     load (blank name w) = Ret (-1, Some e) (blank name w) /\
     NewBank name w = Ret tt (with_balance (-1) (blank name w))).
Proof.
  split.
  - intros Hnone. split; [|reflexivity].
    rewrite NewBank_eq. unfold load_result.
    change (files (world (blank name w))) with (files w). rewrite Hnone.
    reflexivity.
  - intros db z e Hfile Hjson.
    assert (Hl : load_result (blank name w) = (-1, Some e)).
    { unfold load_result.
      change (files (world (blank name w))) with (files w).
      rewrite Hfile, Hjson. reflexivity. }
    split.
    + rewrite load_eq, Hl. reflexivity.
    + rewrite NewBank_eq, Hl. reflexivity.
Qed.

Lemma new_bank_data_file_witness :
  (files quiet_world !! data_path (blank "Tom" quiet_world) = None /\
   files corrupt_world !! data_path (blank "Tom" corrupt_world)
     = Some (Content "abc") /\
   Unmarshal_int "abc" 0
     = (0, Some (JSONError "cannot unmarshal into Go value of type int"))) /\
  NewBank "Tom" quiet_world = Ret tt (blank "Tom" quiet_world) /\
  NewBank "Tom" corrupt_world
    = Ret tt (with_balance (-1) (blank "Tom" corrupt_world)) /\
  balance (bank (with_balance (-1) (blank "Tom" corrupt_world))) = -1.
Proof.
  assert (H1 : files quiet_world !! data_path (blank "Tom" quiet_world) = None)
    by reflexivity.
  assert (H2 : files corrupt_world !! data_path (blank "Tom" corrupt_world)
               = Some (Content "abc")) by (vm_compute; reflexivity).
  assert (H3 : Unmarshal_int "abc" 0
               = (0, Some (JSONError "cannot unmarshal into Go value of type int")))
    by reflexivity.
  split; [auto|].
  split;
    [exact (proj1 (proj1 (new_bank_data_file "Tom" quiet_world) H1))|].
  split; [|reflexivity].
  exact (proj2 (proj2 (new_bank_data_file "Tom" corrupt_world) _ _ _ H2 H3)).
Defined.

(** The bank built on the corrupt file works like any other: a deposit of
    five succeeds and writes 4 over the file. *)
Example corrupt_bank_is_usable :
  exists txID s',
    Deposit 5 "" (with_balance (-1) (blank "Tom" corrupt_world))
      = Ret (txID, None) s' /\
    balance (bank s') = 4 /\
    files (world s') !! "/srv/bank-tom.dat" = Some (Content "4").
Proof. do 2 eexists. split; [vm_compute; reflexivity|]. split; reflexivity. Qed.

(** ** Failures of the write to disk *)

Lemma perform_fresh (c : call) (s : State) :
  admitted c s -> fresh (call_key c) s ->
  exists txID,
    is_txid (call_prefix c) 10 txID /\
    perform c s =
    match create_error (disk_next s) with
    | Some _ => Exit 1 (advance_disk (applied c txID s))
    | None => Ret (txID, None) (saved (applied c txID s))
    end.
Proof.
  intros [Ha Hb] Hf. destruct c as [amount k | amount k]; simpl in *.
  - apply Deposit_fresh; assumption.
  - apply Withdraw_fresh; assumption.
Qed.

(** C7. What a call of [Deposit] or [Withdraw] that got past its guards and
    the key lookup does when the write fails.  When [os.Create] fails,
    [save] calls [log.Fatalf]: the process exits, nothing is returned, and
    the file is as before while the balance had changed.  When [file.Write]
    comes short, its error is dropped: the call returns the transaction ID
    and no error, with the balance changed and the file holding only the
    bytes written.  In no case is an error returned to the caller, where the
    specification has a persistence error. *)
Theorem write_failure_not_returned (c : call) (s : State) :
  admitted c s -> fresh (call_key c) s ->
  (forall why, create_error (disk_next s) = Some why ->
     exists txID,
       perform c s = Exit 1 (advance_disk (applied c txID s)) /\
       files (world (advance_disk (applied c txID s))) = files (world s)) /\
  (forall n, create_error (disk_next s) = None ->
     short_write (disk_next s) = Some n ->
     exists txID s',
       perform c s = Ret (txID, None) s' /\
       balance (bank s') = balance (bank (applied c txID s)) /\
       files (world s') !! data_path s =
       Some (Content (String.substring 0 n (itoa (balance (bank s')))))) /\
  (forall txID e s', perform c s <> Ret (txID, Some e) s').
Proof.
  intros Hadm Hf.
  destruct (perform_fresh c s Hadm Hf) as (txID & _ & Hp).
  split; [|split].
  - intros why Hc. exists txID. rewrite Hp, Hc.
    split; [reflexivity|]. destruct c; reflexivity.
  - intros n Hc Hs. exists txID, (saved (applied c txID s)).
    rewrite Hp, Hc. split; [reflexivity|]. split; [destruct c; reflexivity|].
    assert (Hpath : data_path (applied c txID s) = data_path s)
      by (destruct c; reflexivity).
    assert (Hio : disk_next (applied c txID s) = disk_next s)
      by (destruct c; reflexivity).
    unfold saved at 1. unfold put_file. simpl.
    rewrite Hpath, Hio, lookup_insert_eq. unfold written. rewrite Hs.
    destruct c; reflexivity.
  - intros t e s' Heq. rewrite Hp in Heq.
    destruct (create_error (disk_next s)); discriminate Heq.
Qed.

Lemma write_failure_not_returned_witness :
  (admitted (CallDeposit 100 "") (blank "Tom" readonly_world) /\
   fresh "" (blank "Tom" readonly_world) /\
   create_error (disk_next (blank "Tom" readonly_world))
     = Some "permission denied") /\
  exists txID,
    perform (CallDeposit 100 "") (blank "Tom" readonly_world)
      = Exit 1 (advance_disk
                  (applied (CallDeposit 100 "") txID (blank "Tom" readonly_world))) /\
    files (world (advance_disk
                    (applied (CallDeposit 100 "") txID (blank "Tom" readonly_world))))
      = files (world (blank "Tom" readonly_world)).
Proof.
  assert (H1 : admitted (CallDeposit 100 "") (blank "Tom" readonly_world))
    by (split; [simpl; lia | exact I]).
  assert (H2 : fresh "" (blank "Tom" readonly_world)) by (left; reflexivity).
  assert (H3 : create_error (disk_next (blank "Tom" readonly_world))
               = Some "permission denied") by reflexivity.
  split; [auto|].
  exact (proj1 (write_failure_not_returned (CallDeposit 100 "")
                  (blank "Tom" readonly_world) H1 H2)
           "permission denied" H3).
Defined.

(** With a disk that takes no bytes, [Deposit(100, "")] reports success
    while the data file is left empty. *)
Example deposit_on_full_disk :
  exists s',
    Deposit 100 "" (blank "Tom" full_disk_world)
      = Ret ("D0001235791", None) s' /\
    balance (bank s') = 100 /\
    files (world s') !! "/srv/bank-tom.dat" = Some (Content EmptyString).
Proof. eexists. split; [vm_compute; reflexivity|]. split; reflexivity. Qed.

(** ** The insufficient-funds protocol *)

Lemma insufficient_funds_detail (amount bal : Z) :
  insufficient_funds amount bal
  = "insufficient funds: " +:+ funds_detail amount bal.
Proof. reflexivity. Qed.

Lemma funds_detail_one_line (amount bal : Z) :
  all_chars not_newline (funds_detail amount bal) = true.
Proof.
  unfold funds_detail.
  rewrite !all_chars_app, !itoa_no_newline. reflexivity.
Qed.

Lemma service_marker (d : string) :
  Contains ("insufficient funds: " +:+ d) "insufficient funds:" = true /\
  find_submatch ":" ("insufficient funds: " +:+ d) = Some (dot_star d).
Proof. split; reflexivity. Qed.

Lemma client_marker (d : string) :
  Contains ("ERROR: INSUFFICIENT_FUNDS: " +:+ d) "INSUFFICIENT_FUNDS" = true /\
  Contains ("ERROR: INSUFFICIENT_FUNDS: " +:+ d) "INSUFFICIENT_FUNDS:" = true /\
  find_submatch "INSUFFICIENT_FUNDS:" ("ERROR: INSUFFICIENT_FUNDS: " +:+ d)
  = Some (dot_star d).
Proof. repeat split; reflexivity. Qed.

(** C8. When the [Withdraw] behind a withdraw request fails with the
    insufficient-funds error, the handler answers with status 400 and a
    body that contains the marker [INSUFFICIENT_FUNDS:], made of the label,
    the detail and a newline; and [callService], given that response,
    returns an [InsufficientFundsError] whose message is that detail,
    character for character. *)
Theorem insufficient_funds_round_trip (r : Request) (s s' : State)
  (a0 : string) (more : list string) (amount : Z) (key : string)
  (a b : Z) (e : error) :
  query r !! "amount" = Some (a0 :: more) ->
  Atoi a0 = Some amount -> 1 <= amount ->
  idempotency_param r s = Ret key s ->
  Withdraw amount key s = Ret (EmptyString, Some e) s' ->
  InsufficientFunds a b e ->
  exists resp,
    withdrawHandler r s = Ret resp s' /\
    status resp = 400 /\
    body resp = "ERROR: INSUFFICIENT_FUNDS: " +:+ funds_detail a b
                  +:+ String newline EmptyString /\
    Contains (body resp) "INSUFFICIENT_FUNDS:" = true /\
    forall (http_Get : string -> http_result) (url : string),
      http_Get url = Got resp ->
      callService http_Get url
      = Returned (EmptyString, Some (InsufficientFundsError (funds_detail a b))).
Proof.
  intros Hq Hatoi Ha Hkey Hw He.
  exists (http_Error ("ERROR: INSUFFICIENT_FUNDS: " +:+ funds_detail a b)
            StatusBadRequest).
  pose proof (funds_detail_one_line a b) as Hline.
  split; [|split; [reflexivity|split; [reflexivity|split]]].
  - unfold withdrawHandler. rewrite Hq. unfold bind at 1. simpl first_param.
    unfold ret at 1. rewrite Hatoi.
    destruct (Z.ltb_spec amount 1) as [Hlt|_]; [lia|].
    unfold bind at 1. rewrite Hkey. unfold bind at 1. rewrite Hw.
    rewrite He. fold (insufficient_funds a b).
    cbn [Error]. rewrite insufficient_funds_detail.
    destruct (service_marker (funds_detail a b)) as [-> ->].
    rewrite (dot_star_whole _ Hline). reflexivity.
  - apply (client_marker (funds_detail a b +:+ String newline EmptyString)).
  - intros http_Get url Hget. unfold callService. rewrite Hget.
    change (status _ >=? 400) with true. cbv iota.
    change (body (http_Error ?m _)) with (m +:+ String newline EmptyString).
    destruct (client_marker (funds_detail a b +:+ String newline EmptyString))
      as (Hc & _ & Hf).
    unfold http_Error, body.
    replace (("ERROR: INSUFFICIENT_FUNDS: " +:+ funds_detail a b)
               +:+ String newline EmptyString)
      with ("ERROR: INSUFFICIENT_FUNDS: "
              +:+ (funds_detail a b +:+ String newline EmptyString))
      by reflexivity.
    rewrite Hc, Hf, (dot_star_line _ Hline). reflexivity.
Qed.

Lemma insufficient_funds_round_trip_witness :
  (query withdraw_5000 !! "amount" = Some ["5000"] /\
   Atoi "5000" = Some 5000 /\ 1 <= 5000 /\
   idempotency_param withdraw_5000 tom_1000 = Ret "k1" tom_1000 /\
   Withdraw 5000 "k1" tom_1000
     = Ret (EmptyString, Some (errorString (insufficient_funds 5000 1000)))
         tom_1000 /\
   InsufficientFunds 5000 1000 (errorString (insufficient_funds 5000 1000))) /\
  exists resp,
    withdrawHandler withdraw_5000 tom_1000 = Ret resp tom_1000 /\
    status resp = 400 /\
    body resp = "ERROR: INSUFFICIENT_FUNDS: " +:+ funds_detail 5000 1000
                  +:+ String newline EmptyString /\
    Contains (body resp) "INSUFFICIENT_FUNDS:" = true /\
    forall (http_Get : string -> http_result) (url : string),
      http_Get url = Got resp ->
      callService http_Get url
      = Returned (EmptyString,
                  Some (InsufficientFundsError (funds_detail 5000 1000))).
Proof.
  assert (H1 : query withdraw_5000 !! "amount" = Some ["5000"])
    by (vm_compute; reflexivity).
  assert (H2 : Atoi "5000" = Some 5000) by reflexivity.
  assert (H3 : 1 <= 5000) by lia.
  assert (H4 : idempotency_param withdraw_5000 tom_1000 = Ret "k1" tom_1000)
    by (vm_compute; reflexivity).
  assert (H5 : Withdraw 5000 "k1" tom_1000
               = Ret (EmptyString,
                      Some (errorString (insufficient_funds 5000 1000)))
                   tom_1000) by (vm_compute; reflexivity).
  assert (H6 : InsufficientFunds 5000 1000
                 (errorString (insufficient_funds 5000 1000))) by reflexivity.
  split; [auto 7|].
  exact (insufficient_funds_round_trip withdraw_5000 tom_1000 tom_1000
           "5000" [] 5000 "k1" 5000 1000 _ H1 H2 H3 H4 H5 H6).
Defined.

(** The text that travels in the example: the detail has no newline of its
    own, the body ends with the one that [http.Error] adds. *)
Example funds_detail_5000 :
  funds_detail 5000 1000 = "withdrawal amount $5000 exceeds balance $1000".
Proof. reflexivity. Qed.

(** ** Goroutines *)

(** A goroutine that is not interrupted does what the method does. *)
Lemma run_alone_perform (c : call) (s : State) :
  run_alone c s = bind (perform c) (fun r => ret (Finished r)) s.
Proof.
  destruct c as [amount k | amount k];
    unfold run_alone, perform, Deposit, Withdraw; run_pieces.
  - destruct (amount <? 1); [reflexivity|].
    destruct (if String.eqb k "" then None else requests (bank s) !! k);
      [reflexivity|].
    run_pieces.
    destruct (generateTransactionID "D" 10 _) as [txID s1| |]; try reflexivity.
    run_pieces.
    destruct (save _) as [[err|] s2| |]; reflexivity.
  - destruct (amount <? 1); [reflexivity|].
    destruct (amount >? balance (bank s)); [reflexivity|].
    destruct (if String.eqb k "" then None else requests (bank s) !! k);
      [reflexivity|].
    run_pieces.
    destruct (generateTransactionID "W" 10 _) as [txID s1| |]; try reflexivity.
    run_pieces.
    destruct (save _) as [[err|] s2| |]; reflexivity.
Qed.

Lemma step_entry_fresh (c : call) (s : State) :
  admitted c s -> fresh (call_key c) s ->
  step c AtEntry s = Ret AtUpdate s.
Proof.
  intros [Ha Hb] Hf. destruct c as [amount k | amount k]; simpl in *.
  - destruct (Z.ltb_spec amount 1); [lia|].
    unfold lookup_key, bind, get_bank. rewrite (key_lookup_fresh k s Hf).
    reflexivity.
  - destruct (Z.ltb_spec amount 1); [lia|].
    unfold bind, get_bank.
    destruct (Z.gtb_spec amount (balance (bank s))); [lia|].
    unfold lookup_key, bind, get_bank. rewrite (key_lookup_fresh k s Hf).
    reflexivity.
Qed.

Lemma step_generate (amount : Z) (k : string) (s : State) :
  exists txID,
    is_txid "D" 10 txID /\
    step (CallDeposit amount k) AtGenerate s
    = Ret (AtRecord txID) (advance_rand 10 s).
Proof.
  destruct (generateTransactionID_spec "D" 10 s) as (txID & Hgen & Hid).
  exists txID. split; [exact Hid|].
  cbn [step]. unfold bind. rewrite Hgen. reflexivity.
Qed.

Lemma step_save_ok (c : call) (txID : string) (s : State) :
  create_error (disk_next s) = None ->
  step c (AtSave txID) s = Ret (Finished (txID, None)) (saved s).
Proof.
  intros Hc. destruct c; cbn [step]; unfold bind;
    rewrite save_eq, Hc; reflexivity.
Qed.

(** C9. Two goroutines call [Deposit] with the same non-empty key, which is
    not yet in the cache.  Under [race_schedule], with a working disk, both
    calls return success, each with an ID of its own, and the balance ends
    with both amounts added: the lookup of one call is not kept apart from
    the update of the other, where the specification has at most one of the
    two applied. *)
Theorem racing_deposits_both_apply (a1 a2 : Z) (k : string) (s : State) :
  1 <= a1 -> 1 <= a2 ->
  k <> EmptyString -> requests (bank s) !! k = None ->
  create_error (disk_next s) = None ->
  create_error (disk_after_next s) = None ->
  exists t1 t2 s',
    interleave race_schedule
      [(CallDeposit a1 k, AtEntry); (CallDeposit a2 k, AtEntry)] s
    = Ret [(CallDeposit a1 k, Finished (t1, None));
           (CallDeposit a2 k, Finished (t2, None))] s' /\
    is_txid "D" 10 t1 /\ is_txid "D" 10 t2 /\
    balance (bank s') = add (add (balance (bank s)) a1) a2 /\
    requests (bank s') !! k = Some t2.
Proof.
  intros H1 H2 Hne Hk Hc1 Hc2.
  assert (Hf : fresh k s) by (right; exact Hk).
  assert (Hadm1 : admitted (CallDeposit a1 k) s) by (split; [exact H1|exact I]).
  assert (Hadm2 : admitted (CallDeposit a2 k) s) by (split; [exact H2|exact I]).
  set (s1 := with_balance (add (balance (bank s)) a1) s).
  destruct (step_generate a1 k s1) as (t1 & Hid1 & Hg1).
  set (s2 := with_request k t1 (advance_rand 10 s1)).
  set (s3 := with_balance (add (balance (bank (saved s2))) a2) (saved s2)).
  destruct (step_generate a2 k s3) as (t2 & Hid2 & Hg2).
  set (s4 := with_request k t2 (advance_rand 10 s3)).
  exists t1, t2, (saved s4).
  split; [|split; [exact Hid1|split; [exact Hid2|split]]].
  - unfold race_schedule. cbn [interleave lookup list_lookup].
    unfold bind at 1.
    rewrite (step_entry_fresh (CallDeposit a1 k) s Hadm1 Hf).
    cbn [insert list_insert lookup list_lookup]. unfold bind at 1.
    rewrite (step_entry_fresh (CallDeposit a2 k) s Hadm2 Hf).
    cbn [insert list_insert lookup list_lookup]. unfold bind at 1.
    change (step (CallDeposit a1 k) AtUpdate s) with (Ret AtGenerate s1).
    cbn [insert list_insert lookup list_lookup]. unfold bind at 1.
    rewrite Hg1.
    cbn [insert list_insert lookup list_lookup]. unfold bind at 1.
    change (step (CallDeposit a1 k) (AtRecord t1) (advance_rand 10 s1))
      with (Ret (AtSave t1) s2).
    cbn [insert list_insert lookup list_lookup]. unfold bind at 1.
    rewrite (step_save_ok (CallDeposit a1 k) t1 s2 Hc1).
    cbn [insert list_insert lookup list_lookup]. unfold bind at 1.
    change (step (CallDeposit a2 k) AtUpdate (saved s2)) with (Ret AtGenerate s3).
    cbn [insert list_insert lookup list_lookup]. unfold bind at 1.
    rewrite Hg2.
    cbn [insert list_insert lookup list_lookup]. unfold bind at 1.
    change (step (CallDeposit a2 k) (AtRecord t2) (advance_rand 10 s3))
      with (Ret (AtSave t2) s4).
    cbn [insert list_insert lookup list_lookup]. unfold bind at 1.
    rewrite (step_save_ok (CallDeposit a2 k) t2 s4 Hc2).
    reflexivity.
  - reflexivity.
  - change (requests (bank (saved s4)))
      with (<[k := t2]> (requests (bank s3))).
    apply lookup_insert_eq.
Qed.

Lemma racing_deposits_both_apply_witness :
  (1 <= 100 /\ "k1" <> EmptyString /\
   requests (bank new_tom) !! "k1" = None /\
   create_error (disk_next new_tom) = None /\
   create_error (disk_after_next new_tom) = None) /\
  exists t1 t2 s',
    interleave race_schedule
      [(CallDeposit 100 "k1", AtEntry); (CallDeposit 100 "k1", AtEntry)] new_tom
    = Ret [(CallDeposit 100 "k1", Finished (t1, None));
           (CallDeposit 100 "k1", Finished (t2, None))] s' /\
    is_txid "D" 10 t1 /\ is_txid "D" 10 t2 /\
    balance (bank s') = add (add (balance (bank new_tom)) 100) 100 /\
    requests (bank s') !! "k1" = Some t2.
Proof.
  assert (H1 : 1 <= 100) by lia.
  assert (H2 : "k1" <> EmptyString) by discriminate.
  assert (H3 : requests (bank new_tom) !! "k1" = None) by reflexivity.
  assert (H4 : create_error (disk_next new_tom) = None) by reflexivity.
  assert (H5 : create_error (disk_after_next new_tom) = None) by reflexivity.
  split; [auto 6|].
  exact (racing_deposits_both_apply 100 100 "k1" new_tom H1 H1 H2 H3 H4 H5).
Defined.

(** The race on Tom's new bank, in numbers: two deposits of 100 under the
    key [k1] leave 200, and the two callers hold different IDs. *)
Example race_on_new_tom :
  exists s',
    interleave race_schedule
      [(CallDeposit 100 "k1", AtEntry); (CallDeposit 100 "k1", AtEntry)] new_tom
    = Ret [(CallDeposit 100 "k1", Finished ("D0001235791", None));
           (CallDeposit 100 "k1", Finished ("D4704826161", None))] s' /\
    balance (bank s') = 200 /\
    requests (bank s') !! "k1" = Some "D4704826161".
Proof. eexists. split; [vm_compute; reflexivity|]. split; reflexivity. Qed.

(** Run one after the other, the same two calls leave 100: the second is
    answered from the cache. *)
Example no_race_on_new_tom :
  exists s',
    perform_all [CallDeposit 100 "k1"; CallDeposit 100 "k1"] new_tom = Ret tt s' /\
    balance (bank s') = 100.
Proof. eexists. split; [vm_compute; reflexivity|]. reflexivity. Qed.

(** Two withdrawals of 100 that overlap on Tom's bank holding 100: both
    pass the check of the balance before either takes its amount, both
    succeed, and the balance ends at -100, on disk as in memory.  The check
    and the update of [Withdraw] are not under [requestsLock] either. *)
Example racing_withdrawals_overdraw :
  exists s',
    interleave race_schedule
      [(CallWithdraw 100 "", AtEntry); (CallWithdraw 100 "", AtEntry)] tom_100
    = Ret [(CallWithdraw 100 "", Finished ("W4704826161", None));
           (CallWithdraw 100 "", Finished ("W7395296420", None))] s' /\
    balance (bank tom_100) = 100 /\
    balance (bank s') = -100 /\
    files (world s') !! "/srv/bank-tom.dat" = Some (Content "-100").
Proof.
  eexists. split; [vm_compute; reflexivity|].
  split; [reflexivity|]. split; reflexivity.
Qed.

(** Run one after the other, the second of these withdrawals is refused. *)
Example no_race_withdrawals :
  exists s1,
    Withdraw 100 "" tom_100 = Ret ("W4704826161", None) s1 /\
    balance (bank s1) = 0 /\
    Withdraw 100 "" s1
    = Ret (EmptyString, Some (errorString (insufficient_funds 100 0))) s1.
Proof.
  eexists. split; [vm_compute; reflexivity|].
  split; [reflexivity|vm_compute; reflexivity].
Qed.

(** One piece of a goroutine under the schedule. *)
Lemma interleave_step (i : nat) (c : call) (p : pc)
  (threads : list (call * pc)) (sched : list nat) (s : State) :
  (i < length threads)%nat ->
  interleave (i :: sched) (<[i := (c, p)]> threads) s
  = bind (step c p) (fun p' => interleave sched (<[i := (c, p')]> threads)) s.
Proof.
  intros Hi. cbn [interleave].
  rewrite (list_lookup_insert_eq threads i (c, p) Hi).
  unfold bind. destruct (step c p s) as [p' s'| |]; try reflexivity.
  rewrite list_insert_insert_eq. reflexivity.
Qed.

(** A goroutine that the schedule runs to its end without a break does
    what it does alone. *)
Lemma interleave_run_alone (i : nat) (c : call)
  (threads : list (call * pc)) (sched : list nat) (s : State) :
  threads !! i = Some (c, AtEntry) ->
  interleave (i :: i :: i :: i :: i :: sched) threads s
  = bind (run_alone c) (fun p => interleave sched (<[i := (c, p)]> threads)) s.
Proof.
  intros Hi. pose proof (lookup_lt_Some _ _ _ Hi) as Hlen.
  rewrite <- (list_insert_id threads i (c, AtEntry) Hi) at 1.
  rewrite (interleave_step i c AtEntry threads _ s Hlen).
  unfold run_alone, bind.
  destruct (step c AtEntry s) as [p1 s1| |]; try reflexivity.
  rewrite (interleave_step i c p1 threads _ s1 Hlen). unfold bind.
  destruct (step c p1 s1) as [p2 s2| |]; try reflexivity.
  rewrite (interleave_step i c p2 threads _ s2 Hlen). unfold bind.
  destruct (step c p2 s2) as [p3 s3| |]; try reflexivity.
  rewrite (interleave_step i c p3 threads _ s3 Hlen). unfold bind.
  destruct (step c p3 s3) as [p4 s4| |]; try reflexivity.
  rewrite (interleave_step i c p4 threads _ s4 Hlen). unfold bind.
  destruct (step c p4 s4) as [p5 s5| |]; reflexivity.
Qed.

(** Two goroutines of which the second starts when the first has returned
    do what the two calls do one after the other. *)
Lemma interleave_one_after_other (c1 c2 : call) (s : State) :
  interleave [0; 0; 0; 0; 0; 1; 1; 1; 1; 1]%nat [(c1, AtEntry); (c2, AtEntry)] s
  = (let* r1 := perform c1 in
     let* r2 := perform c2 in
     ret [(c1, Finished r1); (c2, Finished r2)]) s.
Proof.
  rewrite (interleave_run_alone 0 c1 [(c1, AtEntry); (c2, AtEntry)]
             [1; 1; 1; 1; 1]%nat s eq_refl).
  unfold bind. rewrite run_alone_perform. unfold bind.
  destruct (perform c1 s) as [r1 s1| |]; try reflexivity.
  unfold ret at 1. cbn [insert list_insert].
  rewrite (interleave_run_alone 1 c2 [(c1, Finished r1); (c2, AtEntry)]
             [] s1 eq_refl).
  unfold bind. rewrite run_alone_perform. unfold bind.
  destruct (perform c2 s1) as [r2 s2| |]; reflexivity.
Qed.

(** ** The balance as an [int] *)

(** The balance is an [int] in every state the program reaches: [load] hands back zero, minus one or a
    number that fitted an [int], and every update wraps. *)
Lemma NewBank_balance_is_int (name : string) (w : World) (s0 : State) :
  NewBank name w = Ret tt s0 -> min_int <= balance (bank s0) <= max_int.
Proof.
  rewrite NewBank_eq. intros [= <-]. simpl. pose proof int_bounds as Hb.
  unfold load_result.
  destruct (files (world (blank name w)) !! data_path (blank name w))
    as [[why|db]|]; simpl; try lia.
  destruct (Unmarshal_int db 0) as [z [e|]] eqn:Hu; simpl; [lia|].
  apply (Unmarshal_int_range db z Hu).
Qed.

Lemma perform_balance_is_int (c : call) (s s1 : State) :
  min_int <= balance (bank s) <= max_int ->
  end_state (perform c s) = Some s1 ->
  min_int <= balance (bank s1) <= max_int.
Proof.
  intros Hr Hend.
  destruct (perform_cases c s)
    as [(e & He) | [(t & _ & _ & _ & Hc) | (txID & _ & _ & _ & Hf)]].
  - rewrite He in Hend. injection Hend as <-. exact Hr.
  - rewrite Hc in Hend. injection Hend as <-. exact Hr.
  - assert (Hb : balance (bank s1) = balance (bank (applied c txID s))).
    { rewrite Hf in Hend.
      destruct (create_error (disk_next s)); injection Hend as <-; reflexivity. }
    rewrite Hb, applied_balance. destruct c; apply wrap_range.
Qed.

(** ** The scenarios of the README *)

(** A deposit of 1100 and a withdrawal of 100, without keys. *)
Example deposit_then_withdraw :
  exists s1 s2,
    Deposit 1100 "" new_tom = Ret ("D0001235791", None) s1 /\
    balance (bank s1) = 1100 /\
    Withdraw 100 "" s1 = Ret ("W4704826161", None) s2 /\
    balance (bank s2) = 1000 /\
    files (world s2) !! "/srv/bank-tom.dat" = Some (Content "1000").
Proof.
  do 2 eexists. split; [vm_compute; reflexivity|]. split; [reflexivity|].
  split; [vm_compute; reflexivity|]. split; reflexivity.
Qed.

(** The same deposit sent twice under one key counts once. *)
Example deposit_twice_same_key :
  exists s1,
    Deposit 5000 "12345" new_tom = Ret ("D0001235791", None) s1 /\
    Deposit 5000 "12345" s1 = Ret ("D0001235791", None) s1 /\
    balance (bank s1) = 5000.
Proof.
  eexists. split; [vm_compute; reflexivity|].
  split; [vm_compute; reflexivity|reflexivity].
Qed.

(** The balance written by [save] is the one that [NewBank] reads back. *)
Example restart_keeps_balance :
  Deposit 1100 "" new_tom = Ret ("D0001235791", None) tom_1100 /\
  NewBank "Tom" (world tom_1100)
  = Ret tt (with_balance 1100 (blank "Tom" (world tom_1100))).
Proof. split; vm_compute; reflexivity. Qed.

(** * Further properties *)

(** ** Decimal text read back *)

(** The number that a run of digits stands for after the digits [acc]. *)
Lemma digits_from_uint (d : Decimal.uint) (acc : positive) :
  digits_from (Z.pos acc) (NilEmpty.string_of_uint d)
  = Some (Z.pos (Pos.of_uint_acc d acc)).
Proof.
  revert acc. induction d; intros acc; cbn [NilEmpty.string_of_uint digits_from];
    try reflexivity;
    change (is_digit _) with true; cbv iota; cbn [Pos.of_uint_acc];
    rewrite <- IHd; f_equal; unfold digit_val; digit_const; lia.
Qed.

Lemma digits_from_zero_uint (d : Decimal.uint) :
  digits_from 0 (NilEmpty.string_of_uint d) = Some (Z.of_uint d).
Proof.
  unfold Z.of_uint.
  induction d; cbn [NilEmpty.string_of_uint digits_from Pos.of_uint];
    try reflexivity;
    change (is_digit _) with true; cbv iota;
    first [ exact IHd | apply (digits_from_uint d) ].
Qed.

Lemma digits_uint (d : Decimal.uint) :
  digits (NilZero.string_of_uint d) = Some (Z.of_uint d).
Proof.
  destruct d; try reflexivity;
    apply (digits_from_zero_uint (_ d)).
Qed.

Lemma nilzero_uint_head (d : Decimal.uint) :
  exists c rest,
    NilZero.string_of_uint d = String c rest /\ is_digit c = true.
Proof. destruct d; do 2 eexists; split; reflexivity. Qed.

Lemma Atoi_digit_first (c : ascii) (rest : string) :
  is_digit c = true ->
  Atoi (String c rest) = digits (String c rest) ≫= in_range.
Proof.
  destruct c as [[] [] [] [] [] [] [] []]; intros H;
    try (cbv in H; discriminate H); reflexivity.
Qed.

Lemma in_range_int (z : Z) : min_int <= z <= max_int -> in_range z = Some z.
Proof.
  intros [H1 H2]. unfold in_range, in_int.
  destruct (Z.leb_spec min_int z); [|lia].
  destruct (Z.leb_spec z max_int); [reflexivity|lia].
Qed.

(** [strconv.Atoi] reads back what [%d] printed. *)
Lemma Atoi_itoa (z : Z) : min_int <= z <= max_int -> Atoi (itoa z) = Some z.
Proof.
  intros Hr. unfold itoa. pose proof (DecimalZ.of_to z) as Hz.
  destruct (Z.to_int z) as [d|d]; cbn [NilZero.string_of_int Z.of_int] in *.
  - destruct (nilzero_uint_head d) as (c & rest & Hs & Hc).
    rewrite Hs, (Atoi_digit_first c rest Hc), <- Hs, digits_uint, Hz.
    apply in_range_int, Hr.
  - cbn [Atoi]. rewrite digits_uint. cbn. rewrite Hz. apply in_range_int, Hr.
Qed.

Lemma pos_uint_head (p : positive) (d : Decimal.uint) :
  Pos.to_uint p <> Decimal.D0 d.
Proof.
  intros H.
  assert (Hn : Decimal.unorm (Pos.to_uint p) = Pos.to_uint p).
  { rewrite <- (DecimalPos.Unsigned.to_of (Pos.to_uint p)).
    rewrite DecimalPos.Unsigned.of_to. reflexivity. }
  rewrite H in Hn. unfold Decimal.unorm in Hn.
  destruct (Decimal.nzhead (Decimal.D0 d)) eqn:Hh;
    try (rewrite <- Hh in Hn; apply DecimalFacts.nzhead_nonzero in Hn; exact Hn).
  injection Hn as <-.
  apply (DecimalPos.Unsigned.to_uint_nonzero p). exact H.
Qed.

Lemma json_digits_pos (p : positive) :
  json_digits (NilZero.string_of_uint (Pos.to_uint p))
  = Some (Z.of_uint (Pos.to_uint p)).
Proof.
  pose proof (pos_uint_head p) as Hh.
  pose proof (DecimalPos.Unsigned.to_uint_nonnil p) as Hnil.
  rewrite <- digits_uint.
  destruct (Pos.to_uint p) as [|d|d|d|d|d|d|d|d|d|d];
    [contradiction | exfalso; apply (Hh d); reflexivity | ..]; reflexivity.
Qed.

(** [json.Unmarshal] reads back the integer that [save] printed. *)
Lemma json_integer_itoa (z : Z) :
  min_int <= z <= max_int -> json_integer (itoa z) = Some z.
Proof.
  intros Hr. unfold itoa. pose proof (DecimalZ.of_to z) as Hz.
  destruct z as [|p|p]; cbn [Z.to_int NilZero.string_of_int Z.of_int] in *.
  - reflexivity.
  - pose proof (json_digits_pos p) as Hj.
    pose proof (pos_uint_head p) as Hh.
    pose proof (DecimalPos.Unsigned.to_uint_nonnil p) as Hnil.
    assert (Hi : json_integer (NilZero.string_of_uint (Pos.to_uint p))
                 = json_digits (NilZero.string_of_uint (Pos.to_uint p))
                     ≫= in_range).
    { destruct (Pos.to_uint p) as [|d|d|d|d|d|d|d|d|d|d];
        [contradiction | ..]; reflexivity. }
    rewrite Hi, Hj, Hz. apply in_range_int, Hr.
  - cbn [json_integer]. rewrite json_digits_pos. cbn. rewrite Hz.
    apply in_range_int, Hr.
Qed.

Lemma is_digit_not_json_space (c : ascii) :
  is_digit c = true -> negb (json_space c) = true.
Proof.
  destruct c as [[] [] [] [] [] [] [] []]; intros H;
    try (cbv in H; discriminate H); reflexivity.
Qed.

Lemma itoa_no_space (z : Z) :
  all_chars (fun c => negb (json_space c)) (itoa z) = true.
Proof.
  unfold itoa. destruct (Z.to_int z) as [d|d]; cbn [NilZero.string_of_int all_chars].
  - eapply all_chars_weaken; [apply is_digit_not_json_space|apply nilzero_uint_digits].
  - change (negb (json_space "-")) with true. cbn [andb].
    eapply all_chars_weaken; [apply is_digit_not_json_space|apply nilzero_uint_digits].
Qed.

Lemma skip_space_none (s : string) :
  all_chars (fun c => negb (json_space c)) s = true -> skip_space s = s.
Proof.
  destruct s as [|c s]; [reflexivity|]. cbn [all_chars skip_space].
  intros [Hc _]%andb_prop. destruct (json_space c); [discriminate Hc|reflexivity].
Qed.

Lemma token_none (s : string) :
  all_chars (fun c => negb (json_space c)) s = true ->
  token s = (s, EmptyString).
Proof.
  induction s as [|c s IH]; [reflexivity|]. cbn [all_chars token].
  intros [Hc Hs]%andb_prop. destruct (json_space c); [discriminate Hc|].
  rewrite (IH Hs). reflexivity.
Qed.

Lemma itoa_not_null (z : Z) : String.eqb (itoa z) "null" = false.
Proof.
  unfold itoa. destruct (Z.to_int z) as [d|d]; cbn [NilZero.string_of_int].
  - destruct (nilzero_uint_head d) as (c & rest & -> & Hc).
    destruct c as [[] [] [] [] [] [] [] []];
      try (cbv in Hc; discriminate Hc); reflexivity.
  - reflexivity.
Qed.

(** [json.Unmarshal] reads back the balance that [save] printed. *)
Lemma Unmarshal_int_itoa (z old : Z) :
  min_int <= z <= max_int -> Unmarshal_int (itoa z) old = (z, None).
Proof.
  intros Hr. unfold Unmarshal_int.
  rewrite (skip_space_none _ (itoa_no_space z)), (token_none _ (itoa_no_space z)).
  cbn [skip_space]. rewrite itoa_not_null, (json_integer_itoa z Hr). reflexivity.
Qed.

(** ** What a call leaves alone *)

Lemma perform_frame (c : call) (s s' : State) (r : string * option error) :
  perform c s = Ret r s' ->
  name (bank s') = name (bank s) /\
  cwd (world s') = cwd (world s) /\
  disk_plan (world s') = disk_plan (world s) /\
  rand_src (world s') = rand_src (world s).
Proof.
  intros Hp.
  destruct (perform_cases c s)
    as [(e & He) | [(t & _ & _ & _ & Hc) | (txID & _ & _ & _ & Hf)]].
  - rewrite He in Hp. injection Hp as _ <-. auto.
  - rewrite Hc in Hp. injection Hp as _ <-. auto.
  - rewrite Hf in Hp. destruct (create_error (disk_next s)); [discriminate Hp|].
    injection Hp as _ <-. destruct c; auto.
Qed.

(** ** Restarting the service *)

Lemma recoverable_restart (s : State) :
  recoverable s ->
  NewBank (name (bank s)) (world s)
  = Ret tt (with_balance (balance (bank s)) (blank (name (bank s)) (world s))).
Proof.
  intros Hr. rewrite NewBank_eq.
  change (load_result (blank (name (bank s)) (world s))) with (load_result s).
  rewrite Hr. reflexivity.
Qed.

Lemma saved_recoverable (s : State) :
  short_write (disk_next s) = None ->
  min_int <= balance (bank s) <= max_int ->
  recoverable (saved s).
Proof.
  intros Hw Hr. unfold recoverable, load_result.
  change (data_path (saved s)) with (data_path s).
  change (balance (bank (saved s))) with (balance (bank s)).
  unfold saved at 1. unfold put_file. cbn [world files].
  rewrite lookup_insert_eq. unfold written. rewrite Hw.
  rewrite (Unmarshal_int_itoa _ 0 Hr). reflexivity.
Qed.

Lemma perform_recoverable (c : call) (s s' : State) (r : string * option error) :
  recoverable s -> short_write (disk_next s) = None ->
  perform c s = Ret r s' -> recoverable s'.
Proof.
  intros Hrec Hw Hp.
  destruct (perform_cases c s)
    as [(e & He) | [(t & _ & _ & _ & Hc) | (txID & _ & _ & _ & Hf)]].
  - rewrite He in Hp. injection Hp as _ <-. exact Hrec.
  - rewrite Hc in Hp. injection Hp as _ <-. exact Hrec.
  - rewrite Hf in Hp. destruct (create_error (disk_next s)); [discriminate Hp|].
    injection Hp as _ <-. apply saved_recoverable.
    + destruct c; exact Hw.
    + rewrite applied_balance. destruct c; apply wrap_range.
Qed.

Lemma perform_all_recoverable (cs : list call) (s s' : State) :
  recoverable s -> whole_writes (world s) ->
  perform_all cs s = Ret tt s' ->
  recoverable s' /\ name (bank s') = name (bank s).
Proof.
  revert s. induction cs as [|c cs IH]; intros s Hrec Hw Hrun.
  - injection Hrun as <-. auto.
  - cbn [perform_all] in Hrun. unfold bind in Hrun.
    destruct (perform c s) as [r s1 | code s1 | msg] eqn:Hp; try discriminate Hrun.
    destruct (perform_frame c s s1 r Hp) as (Hn & _ & Hplan & _).
    destruct (IH s1) as [H1 H2]; [| |exact Hrun|].
    + apply (perform_recoverable c s s1 r Hrec (Hw _) Hp).
    + unfold whole_writes. rewrite Hplan. exact Hw.
    + split; [exact H1|congruence].
Qed.

(** X1. When [load] meets no error at construction and no write comes
    short, then after any calls of [Deposit] and [Withdraw] that return, a
    new [NewBank] for the same name, in the world they left, starts with
    exactly the balance that was in memory. *)
Theorem restart_recovers_balance (name : string) (w : World)
  (cs : list call) (s0 s' : State) :
  snd (load_result (blank name w)) = None ->
  whole_writes w ->
  NewBank name w = Ret tt s0 ->
  perform_all cs s0 = Ret tt s' ->
  NewBank name (world s')
  = Ret tt (with_balance (balance (bank s')) (blank name (world s'))).
Proof.
  intros Hload Hw Hnew Hrun.
  rewrite NewBank_eq in Hnew. injection Hnew as <-.
  destruct (perform_all_recoverable cs
              (with_balance (fst (load_result (blank name w))) (blank name w)) s')
    as [Hrec Hname]; [| exact Hw | exact Hrun |].
  - unfold recoverable.
    change (load_result (with_balance _ (blank name w)))
      with (load_result (blank name w)).
    destruct (load_result (blank name w)) as [z e]. cbn in *. congruence.
  - cbn in Hname. rewrite <- Hname. apply recoverable_restart. exact Hrec.
Qed.

Lemma restart_recovers_balance_witness :
  (snd (load_result (blank "Tom" quiet_world)) = None /\
   whole_writes quiet_world /\
   NewBank "Tom" quiet_world = Ret tt new_tom /\
   perform_all [CallDeposit 100 "k1"; CallWithdraw 30 "k2"] new_tom
     = Ret tt tom_70) /\
  NewBank "Tom" (world tom_70)
  = Ret tt (with_balance (balance (bank tom_70)) (blank "Tom" (world tom_70))).
Proof.
  assert (H1 : snd (load_result (blank "Tom" quiet_world)) = None)
    by reflexivity.
  assert (H2 : whole_writes quiet_world) by (intros n; reflexivity).
  assert (H3 : NewBank "Tom" quiet_world = Ret tt new_tom)
    by (vm_compute; reflexivity).
  assert (H4 : perform_all [CallDeposit 100 "k1"; CallWithdraw 30 "k2"] new_tom
               = Ret tt tom_70) by (vm_compute; reflexivity).
  split; [auto|].
  exact (restart_recovers_balance "Tom" quiet_world
           [CallDeposit 100 "k1"; CallWithdraw 30 "k2"] new_tom tom_70
           H1 H2 H3 H4).
Defined.

(** ** The IDs that calls return *)

Lemma call_prefix_txid (c : call) (t : string) :
  is_txid (call_prefix c) 10 t -> is_txid "D" 10 t \/ is_txid "W" 10 t.
Proof. destruct c; auto. Qed.

Lemma perform_cache_wellformed (c : call) (s s' : State)
  (r : string * option error) :
  cache_wellformed s -> perform c s = Ret r s' ->
  cache_wellformed s' /\
  (snd r = None -> is_txid "D" 10 (fst r) \/ is_txid "W" 10 (fst r)).
Proof.
  intros Hwf Hp.
  destruct (perform_cases c s)
    as [(e & He) | [(t & _ & _ & Hk & Hc) | (txID & _ & _ & Hid & Hf)]].
  - rewrite He in Hp. injection Hp as <- <-. split; [exact Hwf|discriminate].
  - rewrite Hc in Hp. injection Hp as <- <-.
    split; [exact Hwf|]. intros _. apply (Hwf _ _ Hk).
  - rewrite Hf in Hp. destruct (create_error (disk_next s)); [discriminate Hp|].
    injection Hp as <- <-. apply call_prefix_txid in Hid. split; [|auto].
    intros k t. rewrite applied_requests.
    destruct (decide (call_key c = k)) as [->|Hne].
    + rewrite lookup_insert_eq. intros [= <-]. exact Hid.
    + rewrite lookup_insert_ne by exact Hne. apply Hwf.
Qed.

Lemma perform_all_cache_wellformed (cs : list call) (s s' : State) :
  cache_wellformed s -> perform_all cs s = Ret tt s' -> cache_wellformed s'.
Proof.
  revert s. induction cs as [|c cs IH]; intros s Hwf Hrun.
  - injection Hrun as <-. exact Hwf.
  - cbn [perform_all] in Hrun. unfold bind in Hrun.
    destruct (perform c s) as [r s1 | code s1 | msg] eqn:Hp; try discriminate Hrun.
    apply (IH s1); [|exact Hrun].
    apply (perform_cache_wellformed c s s1 r Hwf Hp).
Qed.

(** X2. From [NewBank] on, whatever calls were made before, every
    transaction ID that [Deposit] or [Withdraw] returns without an error is
    the letter D or W followed by exactly ten decimal digits, also when it
    is answered from the cache; the prefix tells the operation that first
    used the key, not the one that asks. *)
Theorem returned_ids_wellformed (name : string) (w : World) (cs : list call)
  (s0 s s' : State) (c : call) (t : string) :
  NewBank name w = Ret tt s0 ->
  perform_all cs s0 = Ret tt s ->
  perform c s = Ret (t, None) s' ->
  is_txid "D" 10 t \/ is_txid "W" 10 t.
Proof.
  intros Hnew Hrun Hp.
  assert (Hwf0 : cache_wellformed s0).
  { rewrite NewBank_eq in Hnew. injection Hnew as <-.
    intros k t0 Hk. cbn in Hk. rewrite lookup_empty in Hk. discriminate Hk. }
  pose proof (perform_all_cache_wellformed cs s0 s Hwf0 Hrun) as Hwf.
  destruct (perform_cache_wellformed c s s' (t, None) Hwf Hp) as [_ Hid].
  apply Hid. reflexivity.
Qed.

Lemma returned_ids_wellformed_witness :
  (NewBank "Tom" quiet_world = Ret tt new_tom /\
   perform_all [CallDeposit 100 "k1"] new_tom = Ret tt tom_100 /\
   perform (CallWithdraw 20 "k1") tom_100 = Ret ("D0001235791", None) tom_100) /\
  (is_txid "D" 10 "D0001235791" \/ is_txid "W" 10 "D0001235791").
Proof.
  assert (H1 : NewBank "Tom" quiet_world = Ret tt new_tom)
    by (vm_compute; reflexivity).
  assert (H2 : perform_all [CallDeposit 100 "k1"] new_tom = Ret tt tom_100)
    by (vm_compute; reflexivity).
  assert (H3 : perform (CallWithdraw 20 "k1") tom_100
               = Ret ("D0001235791", None) tom_100) by (vm_compute; reflexivity).
  split; [auto|].
  exact (returned_ids_wellformed "Tom" quiet_world [CallDeposit 100 "k1"]
           new_tom tom_100 tom_100 (CallWithdraw 20 "k1") "D0001235791"
           H1 H2 H3).
Defined.

(** ** Calls that fail *)

Lemma Deposit_valid_no_error (amount : Z) (k : string) (s s' : State)
  (t : string) (e : error) :
  1 <= amount -> Deposit amount k s <> Ret (t, Some e) s'.
Proof.
  intros Ha Hp. destruct (fresh_or_cached k s) as [Hf | (t0 & Hne & Hk)].
  - destruct (Deposit_fresh amount k s Ha Hf) as (txID & _ & Hd).
    rewrite Hd in Hp. destruct (create_error (disk_next s)); discriminate Hp.
  - rewrite (Deposit_cached amount k t0 s Ha Hne Hk) in Hp. discriminate Hp.
Qed.

Lemma Withdraw_valid_no_error (amount : Z) (k : string) (s s' : State)
  (t : string) (e : error) :
  1 <= amount -> amount <= balance (bank s) ->
  Withdraw amount k s <> Ret (t, Some e) s'.
Proof.
  intros Ha Hb Hp. destruct (fresh_or_cached k s) as [Hf | (t0 & Hne & Hk)].
  - destruct (Withdraw_fresh amount k s Ha Hb Hf) as (txID & _ & Hd).
    rewrite Hd in Hp. destruct (create_error (disk_next s)); discriminate Hp.
  - rewrite (Withdraw_cached amount k t0 s Ha Hb Hne Hk) in Hp. discriminate Hp.
Qed.

(** X3. A call of [Deposit] or [Withdraw] that returns an error returns the
    empty ID and leaves the whole state as it was; and the error is the
    invalid-amount error of an amount below one or, for [Withdraw] only, the
    insufficient-funds error of an amount above the balance.  No other error
    is ever returned. *)
Theorem failure_leaves_state (c : call) (s s' : State) (t : string) (e : error) :
  perform c s = Ret (t, Some e) s' ->
  s' = s /\ t = EmptyString /\
  ((call_amount c < 1 /\ InvalidAmount e) \/
   (exists amount k,
      c = CallWithdraw amount k /\ 1 <= amount /\
      balance (bank s) < amount /\
      InsufficientFunds amount (balance (bank s)) e)).
Proof.
  intros Hp.
  destruct (Z.lt_ge_cases (call_amount c) 1) as [Hlt|Hge].
  - destruct c as [amount k | amount k]; cbn [perform call_amount] in *.
    + rewrite (Deposit_invalid amount k s Hlt) in Hp. injection Hp as <- <- <-.
      repeat split. left. split; [exact Hlt|]. eexists (" - " +:+ _). reflexivity.
    + rewrite (Withdraw_invalid amount k s Hlt) in Hp. injection Hp as <- <- <-.
      repeat split. left. split; [exact Hlt|]. eexists (": " +:+ _). reflexivity.
  - destruct c as [amount k | amount k]; cbn [perform call_amount] in *.
    + exfalso. apply (Deposit_valid_no_error amount k s s' t e Hge Hp).
    + destruct (Z.lt_ge_cases (balance (bank s)) amount) as [Hb|Hb].
      * rewrite (Withdraw_insufficient amount k s Hge Hb) in Hp.
        injection Hp as <- <- <-. repeat split. right.
        exists amount, k. repeat split; auto.
      * exfalso. apply (Withdraw_valid_no_error amount k s s' t e Hge Hb Hp).
Qed.

(** ** How a call can end *)

Lemma perform_no_panic (c : call) (s : State) (msg : string) :
  perform c s <> Panic msg.
Proof.
  intros Hp.
  destruct (perform_cases c s)
    as [(e & He) | [(t & _ & _ & _ & Hc) | (txID & _ & _ & _ & Hf)]];
    rewrite Hp in *; try discriminate.
  destruct (create_error (disk_next s)); discriminate Hf.
Qed.

Lemma perform_exit_code (c : call) (s : State) (code : Z) (s' : State) :
  perform c s = Exit code s' -> code = 1.
Proof.
  intros Hp.
  destruct (perform_cases c s)
    as [(e & He) | [(t & _ & _ & _ & Hc) | (txID & _ & _ & _ & Hf)]];
    rewrite Hp in *; try discriminate.
  destruct (create_error (disk_next s)); [|discriminate Hf].
  injection Hf as -> _. reflexivity.
Qed.

(** ** The answers of the handlers *)

Lemma idempotency_param_eq (r : Request) (s : State) :
  query r !! "idempotency-key" <> Some [] ->
  idempotency_param r s = Ret (request_key r) s.
Proof.
  intros Hk. unfold idempotency_param, request_key.
  destruct (query r !! "idempotency-key") as [[|k ks]|];
    [contradiction|reflexivity|reflexivity].
Qed.

Lemma depositHandler_valid (r : Request) (s : State)
  (a0 : string) (more : list string) (amount : Z) :
  query r !! "amount" = Some (a0 :: more) ->
  Atoi a0 = Some amount -> 1 <= amount ->
  query r !! "idempotency-key" <> Some [] ->
  depositHandler r s =
  match Deposit amount (request_key r) s with
  | Ret (txID, None) s' => Ret (deposit_complete txID) s'
  | Ret (_, Some e) s' =>
      Ret (http_Error ("ERROR: DEPOSIT_FAIL: " +:+ Error e) StatusBadRequest) s'
  | Exit code s' => Exit code s'
  | Panic msg => Panic msg
  end.
Proof.
  intros Hq Hatoi Ha Hk. unfold depositHandler. rewrite Hq.
  unfold bind at 1. cbn [first_param]. unfold ret at 1. rewrite Hatoi.
  destruct (Z.ltb_spec amount 1); [lia|].
  unfold bind at 1. rewrite (idempotency_param_eq r s Hk).
  unfold bind. destruct (Deposit amount (request_key r) s) as [[t [e|]] s'| |];
    reflexivity.
Qed.

Lemma withdrawHandler_valid (r : Request) (s : State)
  (a0 : string) (more : list string) (amount : Z) :
  query r !! "amount" = Some (a0 :: more) ->
  Atoi a0 = Some amount -> 1 <= amount ->
  query r !! "idempotency-key" <> Some [] ->
  withdrawHandler r s =
  match Withdraw amount (request_key r) s with
  | Ret (txID, None) s' => Ret (withdraw_complete txID) s'
  | Ret (_, Some e) s' =>
      if Contains (Error e) "insufficient funds:" then
        match find_submatch ":" (Error e) with
        | Some detail =>
            Ret (http_Error ("ERROR: INSUFFICIENT_FUNDS: " +:+ detail)
                   StatusBadRequest) s'
        | None => Panic "index out of range"
        end
      else
        Ret (http_Error ("ERROR: WITHDRAW_FAIL: " +:+ Error e) StatusBadRequest) s'
  | Exit code s' => Exit code s'
  | Panic msg => Panic msg
  end.
Proof.
  intros Hq Hatoi Ha Hk. unfold withdrawHandler. rewrite Hq.
  unfold bind at 1. cbn [first_param]. unfold ret at 1. rewrite Hatoi.
  destruct (Z.ltb_spec amount 1); [lia|].
  unfold bind at 1. rewrite (idempotency_param_eq r s Hk).
  unfold bind. destruct (Withdraw amount (request_key r) s) as [[t [e|]] s'| |];
    try reflexivity.
  destruct (Contains (Error e) "insufficient funds:"); [|reflexivity].
  destruct (find_submatch ":" (Error e)); reflexivity.
Qed.

Lemma handlers_bad_amount (r : Request) (s : State) :
  (query r !! "amount" = None ->
   depositHandler r s = Ret missing_amount s /\
   withdrawHandler r s = Ret missing_amount s) /\
  (forall a0 more,
     query r !! "amount" = Some (a0 :: more) ->
     (forall n, Atoi a0 = Some n -> n < 1) ->
     depositHandler r s = Ret invalid_amount s /\
     withdrawHandler r s = Ret invalid_amount s).
Proof.
  split.
  - intros Hq. unfold depositHandler, withdrawHandler. rewrite Hq. split; reflexivity.
  - intros a0 more Hq Hbad.
    split; [unfold depositHandler | unfold withdrawHandler];
      rewrite Hq; unfold bind at 1; cbn [first_param]; unfold ret at 1;
      (destruct (Atoi a0) as [n|]; [|reflexivity]);
      specialize (Hbad n eq_refl);
      (destruct (Z.ltb_spec n 1); [reflexivity|lia]).
Qed.

(** The amount parameter of a request is missing, unusable, or an amount
    of at least one. *)
Lemma amount_cases (r : Request) :
  query r !! "amount" <> Some [] ->
  query r !! "amount" = None \/
  (exists a0 more, query r !! "amount" = Some (a0 :: more) /\
                   forall n, Atoi a0 = Some n -> n < 1) \/
  (exists a0 more amount, query r !! "amount" = Some (a0 :: more) /\
                          Atoi a0 = Some amount /\ 1 <= amount).
Proof.
  intros Hne. destruct (query r !! "amount") as [[|a0 more]|];
    [contradiction| |left; reflexivity].
  right. destruct (Atoi a0) as [n|] eqn:Hn.
  - destruct (Z.lt_ge_cases n 1).
    + left. exists a0, more. split; [reflexivity|].
      intros m Hm. assert (m = n) by congruence. lia.
    + right. exists a0, more, n. auto.
  - left. exists a0, more. split; [reflexivity|]. intros m Hm. congruence.
Qed.

(** A deposit request with a usable amount is served or ends the process. *)
Lemma depositHandler_served (r : Request) (s : State)
  (a0 : string) (more : list string) (amount : Z) :
  query r !! "amount" = Some (a0 :: more) ->
  Atoi a0 = Some amount -> 1 <= amount ->
  query r !! "idempotency-key" <> Some [] -> cache_wellformed s ->
  (exists txID s',
     Deposit amount (request_key r) s = Ret (txID, None) s' /\
     (is_txid "D" 10 txID \/ is_txid "W" 10 txID) /\
     depositHandler r s = Ret (deposit_complete txID) s') \/
  (exists s', depositHandler r s = Exit 1 s').
Proof.
  intros Hq Hatoi Ha Hkey Hcache.
  rewrite (depositHandler_valid r s a0 more amount Hq Hatoi Ha Hkey).
  pose proof (perform_cache_wellformed
                (CallDeposit amount (request_key r)) s) as Hids.
  cbn [perform] in Hids.
  destruct (Deposit amount (request_key r) s) as [[t [e|]] s'| code s' |msg]
    eqn:Hd.
  - exfalso. apply (Deposit_valid_no_error _ _ _ _ _ _ Ha Hd).
  - left. exists t, s'.
    destruct (Hids s' (t, None) Hcache eq_refl) as [_ Hid].
    repeat split; auto.
  - right. exists s'.
    destruct (perform_exit_code (CallDeposit amount (request_key r)) s code s' Hd).
    reflexivity.
  - exfalso. apply (perform_no_panic (CallDeposit amount (request_key r)) s msg Hd).
Qed.

(** X4. What [depositHandler] does with a request, case by case, in a
    state whose cache holds only IDs that the bank made (as every state
    since [NewBank] does; such an ID has no percent sign, so that printing
    the answer through [Fprintf] as its own format leaves it as it is).
    Without an amount parameter: status 400 with MISSING_AMOUNT_PARAM, the
    state untouched.  With a first value that is not an integer of at least
    one: status 400 with INVALID_AMOUNT, the state untouched.  With a usable
    amount: when the key of the request is not empty and in the cache,
    status 200 with the cached ID, the state untouched; when the key is
    empty or new and [os.Create] succeeds, status 200 with the new ID that
    [Deposit] returned, a D and ten digits, in the state that [Deposit]
    left; when the key is empty or new and [os.Create] fails, the exit of
    the process with status 1.  The cases cover every request, so the
    handler never panics and never sends the DEPOSIT_FAIL answer. *)
Theorem depositHandler_answers (r : Request) (s : State) :
  wellformed_request r -> cache_wellformed s ->
  (query r !! "amount" = None -> depositHandler r s = Ret missing_amount s) /\
  (forall a0 more,
     query r !! "amount" = Some (a0 :: more) ->
     (forall n, Atoi a0 = Some n -> n < 1) ->
     depositHandler r s = Ret invalid_amount s) /\
  (forall a0 more amount,
     query r !! "amount" = Some (a0 :: more) ->
     Atoi a0 = Some amount -> 1 <= amount ->
     (forall t,
        request_key r <> EmptyString ->
        requests (bank s) !! request_key r = Some t ->
        (is_txid "D" 10 t \/ is_txid "W" 10 t) /\
        depositHandler r s = Ret (deposit_complete t) s) /\
     (fresh (request_key r) s -> create_error (disk_next s) = None ->
      exists txID,
        is_txid "D" 10 txID /\
        Deposit amount (request_key r) s
        = Ret (txID, None) (saved (deposited amount (request_key r) txID s)) /\
        depositHandler r s
        = Ret (deposit_complete txID)
            (saved (deposited amount (request_key r) txID s))) /\
     (fresh (request_key r) s -> create_error (disk_next s) <> None ->
      exists txID,
        depositHandler r s
        = Exit 1 (advance_disk (deposited amount (request_key r) txID s)))).
Proof.
  intros [Hamt Hkey] Hcache. split; [|split].
  - intros Hq. apply (handlers_bad_amount r s); exact Hq.
  - intros a0 more Hq Hbad.
    apply (proj2 (handlers_bad_amount r s) a0 more Hq Hbad).
  - intros a0 more amount Hq Hatoi Ha.
    rewrite (depositHandler_valid r s a0 more amount Hq Hatoi Ha Hkey).
    split; [|split].
    + intros t Hne Hk. split; [apply (Hcache _ _ Hk)|].
      rewrite (Deposit_cached amount (request_key r) t s Ha Hne Hk).
      reflexivity.
    + intros Hf Hc.
      destruct (Deposit_fresh amount (request_key r) s Ha Hf)
        as (txID & Hid & Hd).
      rewrite Hc in Hd. exists txID. rewrite Hd. repeat split; auto.
    + intros Hf Hc.
      destruct (Deposit_fresh amount (request_key r) s Ha Hf)
        as (txID & _ & Hd).
      exists txID. rewrite Hd.
      destruct (create_error (disk_next s)); [reflexivity|contradiction].
Qed.

(** What a response of [depositHandler] tells about the call behind it. *)
Lemma depositHandler_returned (r : Request) (s s' : State) (resp : Response) :
  wellformed_request r -> cache_wellformed s ->
  depositHandler r s = Ret resp s' ->
  (s' = s /\ (resp = missing_amount \/ resp = invalid_amount)) \/
  (exists a0 more amount txID,
     query r !! "amount" = Some (a0 :: more) /\
     Atoi a0 = Some amount /\ 1 <= amount /\
     Deposit amount (request_key r) s = Ret (txID, None) s' /\
     resp = deposit_complete txID).
Proof.
  intros [Hamt Hkey] Hcache Hh.
  destruct (amount_cases r Hamt)
    as [Hq | [(a0 & more & Hq & Hbad) | (a0 & more & amount & Hq & Hatoi & Ha)]].
  - rewrite (proj1 (proj1 (handlers_bad_amount r s) Hq)) in Hh.
    injection Hh as <- <-. left. auto.
  - rewrite (proj1 (proj2 (handlers_bad_amount r s) a0 more Hq Hbad)) in Hh.
    injection Hh as <- <-. left. auto.
  - right.
    destruct (depositHandler_served r s a0 more amount Hq Hatoi Ha Hkey Hcache)
      as [(txID & s1 & Hd & _ & H) | (s1 & H)];
      rewrite H in Hh; [|discriminate Hh].
    injection Hh as <- <-. exists a0, more, amount, txID. repeat split; auto.
Qed.

Lemma withdrawHandler_refused (r : Request) (s : State)
  (a0 : string) (more : list string) (amount : Z) :
  query r !! "amount" = Some (a0 :: more) ->
  Atoi a0 = Some amount -> 1 <= amount ->
  query r !! "idempotency-key" <> Some [] ->
  balance (bank s) < amount ->
  withdrawHandler r s = Ret (funds_refused amount (balance (bank s))) s.
Proof.
  intros Hq Hatoi Ha Hk Hb.
  rewrite (withdrawHandler_valid r s a0 more amount Hq Hatoi Ha Hk).
  rewrite (Withdraw_insufficient amount (request_key r) s Ha Hb).
  cbn [Error]. rewrite insufficient_funds_detail.
  destruct (service_marker (funds_detail amount (balance (bank s)))) as [-> ->].
  rewrite (dot_star_whole _ (funds_detail_one_line _ _)). reflexivity.
Qed.

(** A withdraw request with a usable amount that the balance covers is
    served or ends the process. *)
Lemma withdrawHandler_served (r : Request) (s : State)
  (a0 : string) (more : list string) (amount : Z) :
  query r !! "amount" = Some (a0 :: more) ->
  Atoi a0 = Some amount -> 1 <= amount -> amount <= balance (bank s) ->
  query r !! "idempotency-key" <> Some [] -> cache_wellformed s ->
  (exists txID s',
     Withdraw amount (request_key r) s = Ret (txID, None) s' /\
     (is_txid "D" 10 txID \/ is_txid "W" 10 txID) /\
     withdrawHandler r s = Ret (withdraw_complete txID) s') \/
  (exists s', withdrawHandler r s = Exit 1 s').
Proof.
  intros Hq Hatoi Ha Hb Hkey Hcache.
  rewrite (withdrawHandler_valid r s a0 more amount Hq Hatoi Ha Hkey).
  pose proof (perform_cache_wellformed
                (CallWithdraw amount (request_key r)) s) as Hids.
  cbn [perform] in Hids.
  destruct (Withdraw amount (request_key r) s) as [[t [e|]] s'| code s' |msg]
    eqn:Hw.
  - exfalso. apply (Withdraw_valid_no_error _ _ _ _ _ _ Ha Hb Hw).
  - left. exists t, s'.
    destruct (Hids s' (t, None) Hcache eq_refl) as [_ Hid].
    repeat split; auto.
  - right. exists s'.
    destruct (perform_exit_code (CallWithdraw amount (request_key r)) s code s' Hw).
    reflexivity.
  - exfalso. apply (perform_no_panic (CallWithdraw amount (request_key r)) s msg Hw).
Qed.

(** X5. What [withdrawHandler] does with a request, case by case, in a
    state whose cache holds only IDs that the bank made.  Without an amount
    parameter: status 400 with MISSING_AMOUNT_PARAM.  With a first value
    that is not an integer of at least one: status 400 with INVALID_AMOUNT.
    With a usable amount above the balance: status 400 with
    INSUFFICIENT_FUNDS and the amount and the balance, whatever the key.
    In these three cases the state is untouched.  With a usable amount that
    the balance covers: when the key of the request is not empty and in the
    cache, status 200 with the cached ID, the state untouched; when the key
    is empty or new and [os.Create] succeeds, status 200 with the new ID
    that [Withdraw] returned, a W and ten digits, in the state that
    [Withdraw] left; when the key is empty or new and [os.Create] fails,
    the exit of the process with status 1.  The cases cover every request,
    so the handler never panics (the pattern always finds the detail) and
    never sends the WITHDRAW_FAIL answer. *)
Theorem withdrawHandler_answers (r : Request) (s : State) :
  wellformed_request r -> cache_wellformed s ->
  (query r !! "amount" = None -> withdrawHandler r s = Ret missing_amount s) /\
  (forall a0 more,
     query r !! "amount" = Some (a0 :: more) ->
     (forall n, Atoi a0 = Some n -> n < 1) ->
     withdrawHandler r s = Ret invalid_amount s) /\
  (forall a0 more amount,
     query r !! "amount" = Some (a0 :: more) ->
     Atoi a0 = Some amount -> 1 <= amount ->
     (balance (bank s) < amount ->
      withdrawHandler r s
      = Ret (funds_refused amount (balance (bank s))) s) /\
     (amount <= balance (bank s) ->
      (forall t,
         request_key r <> EmptyString ->
         requests (bank s) !! request_key r = Some t ->
         (is_txid "D" 10 t \/ is_txid "W" 10 t) /\
         withdrawHandler r s = Ret (withdraw_complete t) s) /\
      (fresh (request_key r) s -> create_error (disk_next s) = None ->
       exists txID,
         is_txid "W" 10 txID /\
         Withdraw amount (request_key r) s
         = Ret (txID, None) (saved (withdrawn amount (request_key r) txID s)) /\
         withdrawHandler r s
         = Ret (withdraw_complete txID)
             (saved (withdrawn amount (request_key r) txID s))) /\
      (fresh (request_key r) s -> create_error (disk_next s) <> None ->
       exists txID,
         withdrawHandler r s
         = Exit 1 (advance_disk (withdrawn amount (request_key r) txID s))))).
Proof.
  intros [Hamt Hkey] Hcache. split; [|split].
  - intros Hq. apply (handlers_bad_amount r s); exact Hq.
  - intros a0 more Hq Hbad.
    apply (proj2 (handlers_bad_amount r s) a0 more Hq Hbad).
  - intros a0 more amount Hq Hatoi Ha. split.
    { intros Hb.
      apply (withdrawHandler_refused r s a0 more amount Hq Hatoi Ha Hkey Hb). }
    intros Hb.
    rewrite (withdrawHandler_valid r s a0 more amount Hq Hatoi Ha Hkey).
    split; [|split].
    + intros t Hne Hk. split; [apply (Hcache _ _ Hk)|].
      rewrite (Withdraw_cached amount (request_key r) t s Ha Hb Hne Hk).
      reflexivity.
    + intros Hf Hc.
      destruct (Withdraw_fresh amount (request_key r) s Ha Hb Hf)
        as (txID & Hid & Hw).
      rewrite Hc in Hw. exists txID. rewrite Hw. repeat split; auto.
    + intros Hf Hc.
      destruct (Withdraw_fresh amount (request_key r) s Ha Hb Hf)
        as (txID & _ & Hw).
      exists txID. rewrite Hw.
      destruct (create_error (disk_next s)); [reflexivity|contradiction].
Qed.

(** What a response of [withdrawHandler] tells about the call behind it. *)
Lemma withdrawHandler_returned (r : Request) (s s' : State) (resp : Response) :
  wellformed_request r -> cache_wellformed s ->
  withdrawHandler r s = Ret resp s' ->
  (s' = s /\ (resp = missing_amount \/ resp = invalid_amount)) \/
  (exists amount,
     s' = s /\ balance (bank s) < amount /\
     resp = funds_refused amount (balance (bank s))) \/
  (exists a0 more amount txID,
     query r !! "amount" = Some (a0 :: more) /\
     Atoi a0 = Some amount /\ 1 <= amount /\ amount <= balance (bank s) /\
     Withdraw amount (request_key r) s = Ret (txID, None) s' /\
     resp = withdraw_complete txID).
Proof.
  intros [Hamt Hkey] Hcache Hh.
  destruct (amount_cases r Hamt)
    as [Hq | [(a0 & more & Hq & Hbad) | (a0 & more & amount & Hq & Hatoi & Ha)]].
  - rewrite (proj2 (proj1 (handlers_bad_amount r s) Hq)) in Hh.
    injection Hh as <- <-. left. auto.
  - rewrite (proj2 (proj2 (handlers_bad_amount r s) a0 more Hq Hbad)) in Hh.
    injection Hh as <- <-. left. auto.
  - right. destruct (Z.lt_ge_cases (balance (bank s)) amount) as [Hb|Hb].
    + rewrite (withdrawHandler_refused r s a0 more amount Hq Hatoi Ha Hkey Hb)
        in Hh.
      injection Hh as <- <-. left. exists amount. auto.
    + right.
      destruct (withdrawHandler_served r s a0 more amount Hq Hatoi Ha Hb Hkey Hcache)
        as [(txID & s1 & Hw & _ & H) | (s1 & H)];
        rewrite H in Hh; [|discriminate Hh].
      injection Hh as <- <-. exists a0, more, amount, txID. repeat split; auto.
Qed.

(** ** Requests sent again *)

(** X6. A deposit request with a non-empty key that was answered with
    status 200 gets the very same answer when it is sent again, and the
    second time nothing changes: not the balance, not the cache, not the
    data file. *)
Theorem deposit_request_repeated (r : Request) (s s1 : State) (resp : Response) :
  wellformed_request r -> cache_wellformed s ->
  request_key r <> EmptyString ->
  depositHandler r s = Ret resp s1 -> status resp = 200 ->
  depositHandler r s1 = Ret resp s1.
Proof.
  intros Hwf Hcache Hne Hd Hst.
  destruct (depositHandler_returned r s s1 resp Hwf Hcache Hd)
    as [[_ [-> | ->]]
       | (a0 & more & amount & txID & Hq & Hatoi & Ha & Hdep & ->)];
    try discriminate Hst.
  pose proof (success_caches (CallDeposit amount (request_key r)) txID s s1 Hdep)
    as Hk. cbn [call_key] in Hk.
  rewrite (depositHandler_valid r s1 a0 more amount Hq Hatoi Ha (proj2 Hwf)).
  rewrite (Deposit_cached amount (request_key r) txID s1 Ha Hne Hk).
  reflexivity.
Qed.

(** X7. A withdraw request with a non-empty key that was answered with
    status 200 gets the same answer again, with nothing changed, only while
    the balance still covers the amount; when what is left is less than the
    amount, the repeated request is refused for insufficient funds, the
    cached ID notwithstanding. *)
Theorem withdraw_request_repeated (r : Request) (s s1 : State) (resp : Response)
  (a0 : string) (more : list string) (amount : Z) :
  wellformed_request r -> cache_wellformed s ->
  request_key r <> EmptyString ->
  query r !! "amount" = Some (a0 :: more) -> Atoi a0 = Some amount ->
  withdrawHandler r s = Ret resp s1 -> status resp = 200 ->
  (amount <= balance (bank s1) -> withdrawHandler r s1 = Ret resp s1) /\
  (balance (bank s1) < amount ->
   withdrawHandler r s1 = Ret (funds_refused amount (balance (bank s1))) s1).
Proof.
  intros Hwf Hcache Hne Hq Hatoi Hw Hst.
  destruct (withdrawHandler_returned r s s1 resp Hwf Hcache Hw)
    as [[_ [-> | ->]] | [(amt & _ & _ & ->)
       | (b0 & more' & amt & txID & Hq' & Hatoi' & Ha & Hb & Hwd & ->)]];
    try discriminate Hst.
  rewrite Hq in Hq'. injection Hq' as <- <-.
  rewrite Hatoi in Hatoi'. injection Hatoi' as <-.
  pose proof (success_caches (CallWithdraw amount (request_key r)) txID s s1 Hwd)
    as Hk. cbn [call_key] in Hk.
  split.
  - intros Hb1.
    rewrite (withdrawHandler_valid r s1 a0 more amount Hq Hatoi Ha (proj2 Hwf)).
    rewrite (Withdraw_cached amount (request_key r) txID s1 Ha Hb1 Hne Hk).
    reflexivity.
  - intros Hb1.
    apply (withdrawHandler_refused r s1 a0 more amount Hq Hatoi Ha (proj2 Hwf) Hb1).
Qed.

(** ** What the client makes of the answers *)

Lemma callService_success (http_Get : string -> http_result) (url : string)
  (resp : Response) :
  http_Get url = Got resp -> status resp = 200 ->
  callService http_Get url = Returned (body resp, None).
Proof.
  intros Hget Hst. unfold callService. rewrite Hget, Hst. reflexivity.
Qed.

Lemma callService_bad_amount (http_Get : string -> http_result) (url : string)
  (resp : Response) :
  http_Get url = Got resp -> resp = missing_amount \/ resp = invalid_amount ->
  callService http_Get url = Returned (EmptyString, Some (http_error_400 resp)).
Proof.
  intros Hget [-> | ->]; unfold callService; rewrite Hget; reflexivity.
Qed.

Lemma callService_funds_refused (http_Get : string -> http_result) (url : string)
  (amount bal : Z) :
  http_Get url = Got (funds_refused amount bal) ->
  callService http_Get url
  = Returned (EmptyString,
              Some (InsufficientFundsError (funds_detail amount bal))).
Proof.
  intros Hget. unfold callService. rewrite Hget.
  change (status (funds_refused amount bal) >=? 400) with true. cbv iota.
  change (body (funds_refused amount bal))
    with ("ERROR: INSUFFICIENT_FUNDS: "
            +:+ (funds_detail amount bal +:+ String newline EmptyString)).
  destruct (client_marker (funds_detail amount bal +:+ String newline EmptyString))
    as (Hc & _ & Hf).
  rewrite Hc, Hf, (dot_star_line _ (funds_detail_one_line amount bal)).
  reflexivity.
Qed.

(** X8. [GetBalance] of the client, given the answer of [balanceHandler],
    returns exactly the balance of the bank, negative ones too, and no
    error; the handler leaves the state as it was. *)
Theorem client_reads_balance (s s' : State) (resp : Response)
  (http_Get : string -> http_result) (client : BankClient) :
  min_int <= balance (bank s) <= max_int ->
  balanceHandler s = Ret resp s' ->
  http_Get (Client.service_url client "/balance") = Got resp ->
  s' = s /\
  Client.GetBalance http_Get client = Returned (balance (bank s), None).
Proof.
  intros Hr Hh Hget. injection Hh as <- <-. split; [reflexivity|].
  unfold Client.GetBalance.
  rewrite (callService_success http_Get _ _ Hget eq_refl).
  change (Cut (body _) "=")
    with ("SUCCESS: balance", itoa (balance (bank s)), true).
  cbv iota beta. rewrite (Atoi_itoa _ Hr). reflexivity.
Qed.

(** X9. [GetName] of the client, given the answer of [nameHandler], returns
    exactly the name of the bank, whatever characters it holds (an equal
    sign or a newline included), and no error. *)
Theorem client_reads_name (s s' : State) (resp : Response)
  (http_Get : string -> http_result) (client : BankClient) :
  nameHandler s = Ret resp s' ->
  http_Get (Client.service_url client "/name") = Got resp ->
  s' = s /\
  Client.GetName http_Get client = Returned (name (bank s), None).
Proof.
  intros Hh Hget. injection Hh as <- <-. split; [reflexivity|].
  unfold Client.GetName.
  rewrite (callService_success http_Get _ _ Hget eq_refl).
  reflexivity.
Qed.

(** X10. [Deposit] of the client, given the answer of [depositHandler] to a
    request: it returns the ID that [Deposit] of the bank returned when the
    handler answered with status 200, and otherwise the plain error made of
    status 400 and the body, the bank untouched.  It never panics. *)
Theorem client_deposit_result (r : Request) (s s' : State) (resp : Response)
  (http_Get : string -> http_result) (QueryEscape : string -> string)
  (client : BankClient) (amount : Z) (key : string) :
  wellformed_request r -> cache_wellformed s ->
  depositHandler r s = Ret resp s' ->
  http_Get (deposit_url QueryEscape client amount key) = Got resp ->
  (exists served txID,
     Deposit served (request_key r) s = Ret (txID, None) s' /\
     Client.Deposit http_Get QueryEscape client amount key
     = Returned (txID, None)) \/
  (s' = s /\
   Client.Deposit http_Get QueryEscape client amount key
   = Returned (EmptyString, Some (http_error_400 resp))).
Proof.
  intros Hwf Hcache Hh Hget. unfold Client.Deposit.
  fold (deposit_url QueryEscape client amount key).
  destruct (depositHandler_returned r s s' resp Hwf Hcache Hh)
    as [[-> Hbad] | (a0 & more & served & txID & _ & _ & _ & Hdep & ->)].
  - right. split; [reflexivity|].
    rewrite (callService_bad_amount http_Get _ _ Hget Hbad). reflexivity.
  - left. exists served, txID. split; [exact Hdep|].
    rewrite (callService_success http_Get _ _ Hget eq_refl). reflexivity.
Qed.

(** X11. [Withdraw] of the client, given the answer of [withdrawHandler]
    to a request, case by case.  When the request had a usable amount that
    the balance covered: the ID that [Withdraw] of the bank returned for
    that amount, and no error.  When it had a usable amount above the
    balance: an [InsufficientFundsError] whose message is the detail with
    that amount and the balance, the bank untouched.  When its amount was
    missing or not an integer of at least one: the plain error made of
    status 400 and the body, the bank untouched.  The cases cover every
    request that the handler answers, so the client never panics. *)
Theorem client_withdraw_result (r : Request) (s s' : State) (resp : Response)
  (http_Get : string -> http_result) (QueryEscape : string -> string)
  (client : BankClient) (amount : Z) (key : string) :
  wellformed_request r -> cache_wellformed s ->
  withdrawHandler r s = Ret resp s' ->
  http_Get (withdraw_url QueryEscape client amount key) = Got resp ->
  (forall a0 more served,
     query r !! "amount" = Some (a0 :: more) ->
     Atoi a0 = Some served -> 1 <= served -> served <= balance (bank s) ->
     exists txID,
       Withdraw served (request_key r) s = Ret (txID, None) s' /\
       Client.Withdraw http_Get QueryEscape client amount key
       = Returned (txID, None)) /\
  (forall a0 more served,
     query r !! "amount" = Some (a0 :: more) ->
     Atoi a0 = Some served -> 1 <= served -> balance (bank s) < served ->
     s' = s /\
     Client.Withdraw http_Get QueryEscape client amount key
     = Returned (EmptyString,
                 Some (InsufficientFundsError
                         (funds_detail served (balance (bank s)))))) /\
  (query r !! "amount" = None \/
   (exists a0 more,
      query r !! "amount" = Some (a0 :: more) /\
      forall n, Atoi a0 = Some n -> n < 1) ->
   s' = s /\
   Client.Withdraw http_Get QueryEscape client amount key
   = Returned (EmptyString, Some (http_error_400 resp))).
Proof.
  intros Hwf Hcache Hh Hget. unfold Client.Withdraw.
  fold (withdraw_url QueryEscape client amount key).
  split; [|split].
  - intros a0 more served Hq Hatoi Ha Hb.
    destruct (withdrawHandler_served r s a0 more served Hq Hatoi Ha Hb
                (proj2 Hwf) Hcache)
      as [(txID & s1 & Hw & _ & H) | (s1 & H)];
      rewrite H in Hh; [|discriminate Hh].
    injection Hh as <- <-. exists txID. split; [exact Hw|].
    rewrite (callService_success http_Get _ _ Hget eq_refl). reflexivity.
  - intros a0 more served Hq Hatoi Ha Hb.
    rewrite (withdrawHandler_refused r s a0 more served Hq Hatoi Ha
               (proj2 Hwf) Hb) in Hh.
    injection Hh as <- <-. split; [reflexivity|].
    rewrite (callService_funds_refused http_Get _ _ _ Hget). reflexivity.
  - intros Hbad.
    assert (Hresp : s' = s /\ (resp = missing_amount \/ resp = invalid_amount)).
    { destruct Hbad as [Hq | (a0 & more & Hq & Hno)].
      - rewrite (proj2 (proj1 (handlers_bad_amount r s) Hq)) in Hh.
        injection Hh as <- <-. auto.
      - rewrite (proj2 (proj2 (handlers_bad_amount r s) a0 more Hq Hno)) in Hh.
        injection Hh as <- <-. auto. }
    destruct Hresp as [-> Hkind]. split; [reflexivity|].
    rewrite (callService_bad_amount http_Get _ _ Hget Hkind). reflexivity.
Qed.

(** ** A deposit taken back *)

(** X12. With a working disk and no keys, a deposit followed by a
    withdrawal of the same amount both succeed and leave the balance where
    it was, provided the balance is not negative and the sum fits an
    [int]. *)
Theorem deposit_then_withdraw_restores (amount : Z) (s : State) :
  1 <= amount -> 0 <= balance (bank s) ->
  balance (bank s) + amount <= max_int ->
  create_error (disk_next s) = None ->
  create_error (disk_after_next s) = None ->
  exists t1 t2 s1 s2,
    Deposit amount "" s = Ret (t1, None) s1 /\
    Withdraw amount "" s1 = Ret (t2, None) s2 /\
    balance (bank s1) = balance (bank s) + amount /\
    balance (bank s2) = balance (bank s).
Proof.
  intros Ha H0 Hmax Hc1 Hc2. pose proof int_bounds as Hib.
  destruct (Deposit_fresh amount "" s Ha (fresh_empty_key s)) as (t1 & _ & Hd).
  rewrite Hc1 in Hd.
  set (s1 := saved (deposited amount "" t1 s)) in *.
  assert (Hb1 : balance (bank s1) = balance (bank s) + amount).
  { change (balance (bank s1)) with (add (balance (bank s)) amount).
    apply wrap_id. lia. }
  assert (Hle : amount <= balance (bank s1)) by lia.
  destruct (Withdraw_fresh amount "" s1 Ha Hle (fresh_empty_key s1))
    as (t2 & _ & Hw).
  change (disk_next s1) with (disk_after_next s) in Hw. rewrite Hc2 in Hw.
  exists t1, t2, s1, (saved (withdrawn amount "" t2 s1)).
  split; [exact Hd|]. split; [exact Hw|]. split; [exact Hb1|].
  change (balance (bank (saved (withdrawn amount "" t2 s1))))
    with (sub (balance (bank s1)) amount).
  unfold sub. rewrite Hb1, wrap_id; lia.
Qed.

Lemma deposit_then_withdraw_restores_witness :
  (1 <= 250 /\ 0 <= balance (bank tom_1000) /\
   balance (bank tom_1000) + 250 <= max_int /\
   create_error (disk_next tom_1000) = None /\
   create_error (disk_after_next tom_1000) = None) /\
  exists t1 t2 s1 s2,
    Deposit 250 "" tom_1000 = Ret (t1, None) s1 /\
    Withdraw 250 "" s1 = Ret (t2, None) s2 /\
    balance (bank s1) = balance (bank tom_1000) + 250 /\
    balance (bank s2) = balance (bank tom_1000).
Proof.
  assert (H1 : 1 <= 250) by lia.
  assert (H2 : 0 <= balance (bank tom_1000)) by (vm_compute; discriminate).
  assert (H3 : balance (bank tom_1000) + 250 <= max_int)
    by (vm_compute; discriminate).
  assert (H4 : create_error (disk_next tom_1000) = None) by reflexivity.
  assert (H5 : create_error (disk_after_next tom_1000) = None) by reflexivity.
  split; [auto 6|].
  exact (deposit_then_withdraw_restores 250 tom_1000 H1 H2 H3 H4 H5).
Defined.

(** ** Names and data files *)

(** X13. Two names that differ only in the case of their ASCII letters
    name the same data file: banks made for them in the same world start
    with the same balance. *)
Theorem case_variants_share_file (n1 n2 : string) (w : World) :
  ToLower n1 = ToLower n2 ->
  data_path (blank n1 w) = data_path (blank n2 w) /\
  exists s1 s2,
    NewBank n1 w = Ret tt s1 /\ NewBank n2 w = Ret tt s2 /\
    balance (bank s1) = balance (bank s2).
Proof.
  intros Hlow.
  assert (Hpath : data_path (blank n1 w) = data_path (blank n2 w)).
  { unfold data_path. cbn [blank bank name world]. rewrite Hlow. reflexivity. }
  split; [exact Hpath|].
  do 2 eexists. split; [apply NewBank_eq|]. split; [apply NewBank_eq|].
  cbn [with_balance bank balance]. unfold load_result.
  cbn [blank world]. rewrite Hpath. reflexivity.
Qed.

Lemma case_variants_share_file_witness :
  ToLower "Tom" = ToLower "TOM" /\
  data_path (blank "Tom" (world tom_100)) = data_path (blank "TOM" (world tom_100)) /\
  exists s1 s2,
    NewBank "Tom" (world tom_100) = Ret tt s1 /\
    NewBank "TOM" (world tom_100) = Ret tt s2 /\
    balance (bank s1) = balance (bank s2).
Proof.
  assert (H1 : ToLower "Tom" = ToLower "TOM") by reflexivity.
  split; [exact H1|].
  exact (case_variants_share_file "Tom" "TOM" (world tom_100) H1).
Defined.

(** ** A write that writes nothing *)

(** X14. When a call of [Deposit] or [Withdraw] goes through and its
    [file.Write] writes no byte, the call still returns its ID without an
    error, and the data file is left empty: [load] then fails, and a new
    [NewBank] for the account starts with the balance -1. *)
Theorem empty_write_then_restart (c : call) (s s' : State) (txID : string) :
  fresh (call_key c) s ->
  short_write (disk_next s) = Some O ->
  perform c s = Ret (txID, None) s' ->
  files (world s') !! data_path s' = Some (Content EmptyString) /\
  NewBank (name (bank s')) (world s')
  = Ret tt (with_balance (-1) (blank (name (bank s')) (world s'))).
Proof.
  intros Hf Hw Hp.
  destruct (perform_cases c s)
    as [(e & He) | [(t & _ & Hne & Hk & _) | (t & _ & _ & _ & Hgo)]].
  - rewrite He in Hp. discriminate Hp.
  - exfalso. destruct Hf as [He | Hn]; congruence.
  - rewrite Hgo in Hp. destruct (create_error (disk_next s)); [discriminate Hp|].
    injection Hp as -> <-.
    assert (Hfile : files (world (saved (applied c txID s)))
                      !! data_path (saved (applied c txID s))
                    = Some (Content EmptyString)).
    { change (data_path (saved (applied c txID s)))
        with (data_path (applied c txID s)).
      unfold saved at 1. unfold put_file. cbn [world files].
      rewrite lookup_insert_eq. unfold written.
      replace (disk_next (applied c txID s)) with (disk_next s)
        by (destruct c; reflexivity).
      rewrite Hw. destruct (itoa _); reflexivity. }
    split; [exact Hfile|].
    rewrite NewBank_eq.
    change (load_result (blank (name (bank (saved (applied c txID s))))
                           (world (saved (applied c txID s)))))
      with (load_result (saved (applied c txID s))).
    unfold load_result. rewrite Hfile. reflexivity.
Qed.

Lemma empty_write_then_restart_witness :
  (fresh "" (blank "Tom" full_disk_world) /\
   short_write (disk_next (blank "Tom" full_disk_world)) = Some O /\
   perform (CallDeposit 100 "") (blank "Tom" full_disk_world)
     = Ret ("D0001235791", None)
         (saved (deposited 100 "" "D0001235791" (blank "Tom" full_disk_world)))) /\
  files (world (saved (deposited 100 "" "D0001235791"
                         (blank "Tom" full_disk_world))))
    !! data_path (saved (deposited 100 "" "D0001235791"
                           (blank "Tom" full_disk_world)))
  = Some (Content EmptyString) /\
  NewBank "Tom"
    (world (saved (deposited 100 "" "D0001235791" (blank "Tom" full_disk_world))))
  = Ret tt
      (with_balance (-1)
         (blank "Tom"
            (world (saved (deposited 100 "" "D0001235791"
                             (blank "Tom" full_disk_world)))))).
Proof.
  assert (H1 : fresh "" (blank "Tom" full_disk_world)) by (left; reflexivity).
  assert (H2 : short_write (disk_next (blank "Tom" full_disk_world)) = Some O)
    by reflexivity.
  assert (H3 : perform (CallDeposit 100 "") (blank "Tom" full_disk_world)
               = Ret ("D0001235791", None)
                   (saved (deposited 100 "" "D0001235791"
                             (blank "Tom" full_disk_world))))
    by (vm_compute; reflexivity).
  split; [auto|].
  exact (empty_write_then_restart (CallDeposit 100 "")
           (blank "Tom" full_disk_world) _ "D0001235791" H1 H2 H3).
Defined.

(** ** The theorems on handlers and client at work *)

Lemma new_tom_cache : cache_wellformed new_tom.
Proof. intros k t H. cbn in H. rewrite lookup_empty in H. discriminate H. Qed.

Lemma tom_100_cache : cache_wellformed tom_100.
Proof.
  apply (perform_cache_wellformed (CallDeposit 100 "k1") new_tom tom_100
           ("D0001235791", None) new_tom_cache).
  vm_compute; reflexivity.
Qed.

Lemma tom_40_cache : cache_wellformed tom_40.
Proof.
  apply (perform_cache_wellformed (CallWithdraw 60 "k2") tom_100 tom_40
           ("W4704826161", None) tom_100_cache).
  vm_compute; reflexivity.
Qed.

Lemma deposit_100_k1_wellformed : wellformed_request deposit_100_k1.
Proof. split; vm_compute; discriminate. Qed.

Lemma withdraw_60_k2_wellformed : wellformed_request withdraw_60_k2.
Proof. split; vm_compute; discriminate. Qed.

Lemma failure_leaves_state_witness :
  perform (CallWithdraw 5000 "k1") tom_1000
    = Ret (EmptyString, Some (errorString (insufficient_funds 5000 1000)))
        tom_1000 /\
  tom_1000 = tom_1000 /\ EmptyString = EmptyString /\
  ((call_amount (CallWithdraw 5000 "k1") < 1 /\
    InvalidAmount (errorString (insufficient_funds 5000 1000))) \/
   (exists amount k,
      CallWithdraw 5000 "k1" = CallWithdraw amount k /\ 1 <= amount /\
      balance (bank tom_1000) < amount /\
      InsufficientFunds amount (balance (bank tom_1000))
        (errorString (insufficient_funds 5000 1000)))).
Proof.
  assert (H1 : perform (CallWithdraw 5000 "k1") tom_1000
               = Ret (EmptyString,
                      Some (errorString (insufficient_funds 5000 1000)))
                   tom_1000) by (vm_compute; reflexivity).
  split; [exact H1|].
  exact (failure_leaves_state (CallWithdraw 5000 "k1") tom_1000 tom_1000
           EmptyString _ H1).
Defined.

Lemma depositHandler_answers_witness :
  (wellformed_request deposit_100_k1 /\ cache_wellformed new_tom /\
   query deposit_100_k1 !! "amount" = Some ["100"] /\
   Atoi "100" = Some 100 /\ 1 <= 100 /\
   fresh (request_key deposit_100_k1) new_tom /\
   create_error (disk_next new_tom) = None) /\
  exists txID,
    is_txid "D" 10 txID /\
    Deposit 100 (request_key deposit_100_k1) new_tom
    = Ret (txID, None)
        (saved (deposited 100 (request_key deposit_100_k1) txID new_tom)) /\
    depositHandler deposit_100_k1 new_tom
    = Ret (deposit_complete txID)
        (saved (deposited 100 (request_key deposit_100_k1) txID new_tom)).
Proof.
  pose proof deposit_100_k1_wellformed as H1.
  pose proof new_tom_cache as H2.
  assert (H3 : query deposit_100_k1 !! "amount" = Some ["100"])
    by (vm_compute; reflexivity).
  assert (H4 : Atoi "100" = Some 100) by reflexivity.
  assert (H5 : 1 <= 100) by lia.
  assert (H6 : fresh (request_key deposit_100_k1) new_tom)
    by (right; reflexivity).
  assert (H7 : create_error (disk_next new_tom) = None) by reflexivity.
  split; [auto 10|].
  exact (proj1 (proj2 (proj2 (proj2 (depositHandler_answers deposit_100_k1
                                       new_tom H1 H2))
                         "100" [] 100 H3 H4 H5))
           H6 H7).
Defined.

Lemma withdrawHandler_answers_witness :
  (wellformed_request withdraw_60_k2 /\ cache_wellformed tom_40 /\
   query withdraw_60_k2 !! "amount" = Some ["60"] /\
   Atoi "60" = Some 60 /\ 1 <= 60 /\ balance (bank tom_40) < 60) /\
  withdrawHandler withdraw_60_k2 tom_40
  = Ret (funds_refused 60 (balance (bank tom_40))) tom_40.
Proof.
  pose proof withdraw_60_k2_wellformed as H1.
  pose proof tom_40_cache as H2.
  assert (H3 : query withdraw_60_k2 !! "amount" = Some ["60"])
    by (vm_compute; reflexivity).
  assert (H4 : Atoi "60" = Some 60) by reflexivity.
  assert (H5 : 1 <= 60) by lia.
  assert (H6 : balance (bank tom_40) < 60) by (vm_compute; reflexivity).
  split; [auto 10|].
  exact (proj1 (proj2 (proj2 (withdrawHandler_answers withdraw_60_k2
                                tom_40 H1 H2))
                  "60" [] 60 H3 H4 H5)
           H6).
Defined.

Lemma deposit_request_repeated_witness :
  (wellformed_request deposit_100_k1 /\ cache_wellformed new_tom /\
   request_key deposit_100_k1 <> EmptyString /\
   depositHandler deposit_100_k1 new_tom
     = Ret (deposit_complete "D0001235791") tom_100 /\
   status (deposit_complete "D0001235791") = 200) /\
  depositHandler deposit_100_k1 tom_100
  = Ret (deposit_complete "D0001235791") tom_100.
Proof.
  assert (H1 : request_key deposit_100_k1 <> EmptyString)
    by (vm_compute; discriminate).
  assert (H2 : depositHandler deposit_100_k1 new_tom
               = Ret (deposit_complete "D0001235791") tom_100)
    by (vm_compute; reflexivity).
  assert (H3 : status (deposit_complete "D0001235791") = 200) by reflexivity.
  pose proof deposit_100_k1_wellformed.
  pose proof new_tom_cache.
  split; [auto 10|].
  exact (deposit_request_repeated deposit_100_k1 new_tom tom_100 _
           deposit_100_k1_wellformed new_tom_cache H1 H2 H3).
Defined.

Lemma withdraw_request_repeated_witness :
  (wellformed_request withdraw_60_k2 /\ cache_wellformed tom_100 /\
   request_key withdraw_60_k2 <> EmptyString /\
   query withdraw_60_k2 !! "amount" = Some ["60"] /\ Atoi "60" = Some 60 /\
   withdrawHandler withdraw_60_k2 tom_100
     = Ret (withdraw_complete "W4704826161") tom_40 /\
   status (withdraw_complete "W4704826161") = 200 /\
   balance (bank tom_40) < 60) /\
  withdrawHandler withdraw_60_k2 tom_40
  = Ret (funds_refused 60 (balance (bank tom_40))) tom_40.
Proof.
  assert (H1 : request_key withdraw_60_k2 <> EmptyString)
    by (vm_compute; discriminate).
  assert (H2 : query withdraw_60_k2 !! "amount" = Some ["60"])
    by (vm_compute; reflexivity).
  assert (H3 : Atoi "60" = Some 60) by reflexivity.
  assert (H4 : withdrawHandler withdraw_60_k2 tom_100
               = Ret (withdraw_complete "W4704826161") tom_40)
    by (vm_compute; reflexivity).
  assert (H5 : status (withdraw_complete "W4704826161") = 200) by reflexivity.
  assert (H6 : balance (bank tom_40) < 60) by (vm_compute; reflexivity).
  pose proof withdraw_60_k2_wellformed.
  pose proof tom_100_cache.
  split; [auto 10|].
  exact (proj2 (withdraw_request_repeated withdraw_60_k2 tom_100 tom_40 _
                  "60" [] 60 withdraw_60_k2_wellformed tom_100_cache
                  H1 H2 H3 H4 H5) H6).
Defined.

Lemma client_reads_balance_witness :
  (min_int <= balance (bank tom_1000) <= max_int /\
   balanceHandler tom_1000
     = Ret {| status := 200; body := "SUCCESS: balance=1000" |} tom_1000 /\
   answering {| status := 200; body := "SUCCESS: balance=1000" |}
     (Client.service_url local_client "/balance")
     = Got {| status := 200; body := "SUCCESS: balance=1000" |}) /\
  tom_1000 = tom_1000 /\
  Client.GetBalance
    (answering {| status := 200; body := "SUCCESS: balance=1000" |}) local_client
  = Returned (balance (bank tom_1000), None).
Proof.
  assert (H1 : min_int <= balance (bank tom_1000) <= max_int)
    by (split; vm_compute; discriminate).
  assert (H2 : balanceHandler tom_1000
               = Ret {| status := 200; body := "SUCCESS: balance=1000" |} tom_1000)
    by reflexivity.
  split; [auto|].
  exact (client_reads_balance tom_1000 tom_1000 _ (answering _) local_client
           H1 H2 eq_refl).
Defined.

Lemma client_reads_name_witness :
  (nameHandler tom_1000
     = Ret {| status := 200; body := "SUCCESS: name=Tom" |} tom_1000 /\
   answering {| status := 200; body := "SUCCESS: name=Tom" |}
     (Client.service_url local_client "/name")
     = Got {| status := 200; body := "SUCCESS: name=Tom" |}) /\
  tom_1000 = tom_1000 /\
  Client.GetName
    (answering {| status := 200; body := "SUCCESS: name=Tom" |}) local_client
  = Returned (name (bank tom_1000), None).
Proof.
  assert (H1 : nameHandler tom_1000
               = Ret {| status := 200; body := "SUCCESS: name=Tom" |} tom_1000)
    by reflexivity.
  split; [auto|].
  exact (client_reads_name tom_1000 tom_1000 _ (answering _) local_client
           H1 eq_refl).
Defined.

Lemma client_deposit_result_witness :
  (wellformed_request deposit_100_k1 /\ cache_wellformed new_tom /\
   depositHandler deposit_100_k1 new_tom
     = Ret (deposit_complete "D0001235791") tom_100 /\
   answering (deposit_complete "D0001235791")
     (deposit_url (fun k => k) local_client 100 "k1")
     = Got (deposit_complete "D0001235791")) /\
  ((exists served txID,
      Deposit served (request_key deposit_100_k1) new_tom
        = Ret (txID, None) tom_100 /\
      Client.Deposit (answering (deposit_complete "D0001235791")) (fun k => k)
        local_client 100 "k1"
      = Returned (txID, None)) \/
   (tom_100 = new_tom /\
    Client.Deposit (answering (deposit_complete "D0001235791")) (fun k => k)
      local_client 100 "k1"
    = Returned (EmptyString,
                Some (http_error_400 (deposit_complete "D0001235791"))))).
Proof.
  assert (H1 : depositHandler deposit_100_k1 new_tom
               = Ret (deposit_complete "D0001235791") tom_100)
    by (vm_compute; reflexivity).
  pose proof deposit_100_k1_wellformed.
  pose proof new_tom_cache.
  split; [auto 10|].
  exact (client_deposit_result deposit_100_k1 new_tom tom_100 _
           (answering _) (fun k => k) local_client 100 "k1"
           deposit_100_k1_wellformed new_tom_cache H1 eq_refl).
Defined.

Lemma client_withdraw_result_witness :
  (wellformed_request withdraw_60_k2 /\ cache_wellformed tom_40 /\
   withdrawHandler withdraw_60_k2 tom_40 = Ret (funds_refused 60 40) tom_40 /\
   answering (funds_refused 60 40)
     (withdraw_url (fun k => k) local_client 60 "k2")
     = Got (funds_refused 60 40) /\
   query withdraw_60_k2 !! "amount" = Some ["60"] /\
   Atoi "60" = Some 60 /\ 1 <= 60 /\ balance (bank tom_40) < 60) /\
  tom_40 = tom_40 /\
  Client.Withdraw (answering (funds_refused 60 40)) (fun k => k)
    local_client 60 "k2"
  = Returned (EmptyString,
              Some (InsufficientFundsError
                      (funds_detail 60 (balance (bank tom_40))))).
Proof.
  pose proof withdraw_60_k2_wellformed as H1.
  pose proof tom_40_cache as H2.
  assert (H3 : withdrawHandler withdraw_60_k2 tom_40
               = Ret (funds_refused 60 40) tom_40) by (vm_compute; reflexivity).
  assert (H4 : query withdraw_60_k2 !! "amount" = Some ["60"])
    by (vm_compute; reflexivity).
  assert (H5 : Atoi "60" = Some 60) by reflexivity.
  assert (H6 : 1 <= 60) by lia.
  assert (H7 : balance (bank tom_40) < 60) by (vm_compute; reflexivity).
  split; [repeat (split; [first [assumption | reflexivity]|]); assumption|].
  exact (proj1 (proj2 (client_withdraw_result withdraw_60_k2 tom_40 tom_40 _
                         (answering _) (fun k => k) local_client 60 "k2"
                         H1 H2 H3 eq_refl))
           "60" [] 60 H4 H5 H6 H7).
Defined.
